(** * The sequential operation runner of the PyMongo operation suite

    A shallow embedding of [backend/app.py] (the orchestration endpoint
    [run_all_operations], its nested [execute_operation], the catalog
    [test_operations], [list_operations] and the endpoints [api_insert_one],
    [api_rename], [api_drop]) and of the methods of
    [backend/database.py] they reach ([insert_one], [rename], [drop],
    [clear_collection]).

    Modelling conventions.
    - JSON documents and Python dicts of JSON values are [Json]; a dict is
      an association list in insertion order.
    - A Python exception is [Exn]; [str e] is its message.
    - The database driver, the HTTP transport and the wall clock are the
      environment [Env]: deterministic functions of everything that happened
      so far (the [trace]).  Quantifying over [Env] covers every behaviour of
      these collaborators.
    - Effects are threaded through the monad [M] (state plus exceptions),
      so [try]/[except] blocks are written as in the source.
    - [socketio.emit] is fire-and-forget: it appends the event to the trace
      and does not raise.
    - The run is one thread: [results_lock] guards nothing and is left out.
    - The runner reaches the endpoints through the HTTP transport only; its
      one direct use of the handle is the reset before the run.
    - Further endpoints and database methods are embedded after the runner
      (the index, update, remove, delete, count, distinct, insert, bulk-write
      and clear endpoints); the classes of the driver they construct are
      parameters ([DriverClasses]).
    - Floating point is idealised: a reading of [time.time()] is an exact
      number of microseconds, [round(x, 2)] of a duration in milliseconds is
      a number of hundredths of a millisecond, rounding half to even. *)

From Stdlib Require Import List String Ascii ZArith Bool Lia DecimalString.
Import ListNotations.

Local Open Scope string_scope.
Local Open Scope Z_scope.
Local Open Scope list_scope.

(** ** JSON values and Python helpers *)

#[warnings="-register-all"]
Inductive Json : Type :=
| JNull
| JBool (b : bool)
| JInt (n : Z)
| JStr (s : string)
| JList (xs : list Json)
| JDict (kvs : list (string * Json)).

(** A raised Python exception, carried by its message ([str(e)]). *)
Inductive Exn : Type :=
| Exception (msg : string).

Definition str (e : Exn) : string :=
  match e with Exception msg => msg end.

(** [str(n)] for a Python int. *)
Definition str_of_int (n : Z) : string :=
  NilZero.string_of_int (Z.to_int n).

(** [type(x).__name__] of a decoded JSON value. *)
Definition py_type_name (j : Json) : string :=
  match j with
  | JNull => "NoneType"
  | JBool _ => "bool"
  | JInt _ => "int"
  | JStr _ => "str"
  | JList _ => "list"
  | JDict _ => "dict"
  end.

Fixpoint assoc (k : string) (kvs : list (string * Json)) : option Json :=
  match kvs with
  | [] => None
  | (k', v) :: rest => if String.eqb k k' then Some v else assoc k rest
  end.

(** [x.get(k, default)]: defined on dicts only; on any other value the
    attribute lookup raises [AttributeError]. *)
Definition py_get (x : Json) (k : string) (default : Json) : Exn + Json :=
  match x with
  | JDict kvs =>
      inr (match assoc k kvs with Some v => v | None => default end)
  | _ =>
      inl (Exception ("'" ++ py_type_name x ++ "' object has no attribute 'get'"))
  end.

(** [s[:n]] *)
Definition py_prefix (n : nat) (s : string) : string := substring 0 n s.

(** ** The operation catalog ([test_operations]) and [list_operations] *)

(** A descriptor is the source's triple [(op_name, endpoint, payload)]. *)
Definition Descriptor : Type := (string * string * Json)%type.

Definition op_name (d : Descriptor) : string := fst (fst d).
Definition endpoint (d : Descriptor) : string := snd (fst d).
Definition payload (d : Descriptor) : Json := snd d.

Definition test_operations : list Descriptor :=
  [ (* 1. insert operations *)
    ("insert_one", "/api/insert_one",
      JDict [("document", JDict
        [("name", JStr "Alice Johnson"); ("age", JInt 30);
         ("email", JStr "alice@example.com"); ("status", JStr "active");
         ("department", JStr "Engineering"); ("salary", JInt 85000);
         ("tags", JList [JStr "python"; JStr "mongodb"])])]);
    ("insert_many", "/api/insert_many",
      JDict [("documents", JList
        [JDict [("name", JStr "Bob Smith"); ("age", JInt 25);
                ("email", JStr "bob@example.com"); ("status", JStr "active");
                ("department", JStr "Marketing"); ("salary", JInt 65000)];
         JDict [("name", JStr "Charlie Brown"); ("age", JInt 35);
                ("email", JStr "charlie@example.com"); ("status", JStr "inactive");
                ("department", JStr "Engineering"); ("salary", JInt 95000)];
         JDict [("name", JStr "Diana Ross"); ("age", JInt 28);
                ("email", JStr "diana@example.com"); ("status", JStr "active");
                ("department", JStr "Sales"); ("salary", JInt 72000)];
         JDict [("name", JStr "Edward Chen"); ("age", JInt 42);
                ("email", JStr "edward@example.com"); ("status", JStr "active");
                ("department", JStr "Engineering"); ("salary", JInt 120000)];
         JDict [("name", JStr "Fiona Garcia"); ("age", JInt 31);
                ("email", JStr "fiona@example.com"); ("status", JStr "active");
                ("department", JStr "HR"); ("salary", JInt 68000)]])]);
    ("insert", "/api/insert",
      JDict [("document", JDict
        [("name", JStr "George Wilson"); ("age", JInt 45);
         ("department", JStr "Finance"); ("salary", JInt 110000)])]);
    ("save", "/api/save",
      JDict [("document", JDict
        [("name", JStr "Hannah Lee"); ("age", JInt 33);
         ("department", JStr "Engineering"); ("salary", JInt 92000)])]);
    (* 2. find operations *)
    ("find", "/api/find",
      JDict [("filter", JDict [("status", JStr "active");
                               ("salary", JDict [("$gte", JInt 70000)])]);
             ("limit", JInt 50)]);
    ("find_one", "/api/find_one",
      JDict [("filter", JDict [("$or", JList
        [JDict [("age", JDict [("$gte", JInt 40)])];
         JDict [("salary", JDict [("$gte", JInt 100000)])]])])]);
    ("find_one_and_delete", "/api/find_one_and_delete",
      JDict [("filter", JDict [("status", JStr "inactive")])]);
    ("find_one_and_replace", "/api/find_one_and_replace",
      JDict [("filter", JDict [("email", JStr "diana@example.com")]);
             ("replacement", JDict
               [("name", JStr "Diana Ross-Smith"); ("age", JInt 29);
                ("email", JStr "diana@example.com"); ("status", JStr "active");
                ("department", JStr "Sales"); ("salary", JInt 82000)])]);
    ("find_one_and_update", "/api/find_one_and_update",
      JDict [("filter", JDict [("department", JStr "Sales")]);
             ("update", JDict [("$set", JDict [("last_activity", JStr "2024-12-09")])])]);
    ("find_and_modify", "/api/find_and_modify",
      JDict [("filter", JDict [("salary", JDict [("$gte", JInt 100000)])]);
             ("update", JDict [("$set", JDict [("high_earner", JBool true)])])]);
    (* 3. update operations *)
    ("update_one", "/api/update_one",
      JDict [("filter", JDict [("name", JStr "Alice Johnson")]);
             ("update", JDict [("$set", JDict [("status", JStr "senior")]);
                               ("$inc", JDict [("salary", JInt 15000)])])]);
    ("update_many", "/api/update_many",
      JDict [("filter", JDict [("department", JStr "Engineering")]);
             ("update", JDict [("$set", JDict [("review_pending", JBool true)])])]);
    ("update", "/api/update",
      JDict [("filter", JDict [("name", JStr "Bob Smith")]);
             ("update", JDict [("$set", JDict [("address", JStr "San Francisco")])])]);
    ("replace_one", "/api/replace_one",
      JDict [("filter", JDict [("name", JStr "Fiona Garcia")]);
             ("replacement", JDict
               [("name", JStr "Fiona Garcia"); ("age", JInt 32);
                ("department", JStr "HR"); ("salary", JInt 75000);
                ("promoted", JBool true)])]);
    (* 4. delete operations *)
    ("delete_one", "/api/delete_one",
      JDict [("filter", JDict [("status", JStr "temporary")])]);
    ("delete_many", "/api/delete_many",
      JDict [("filter", JDict [("department", JStr "Intern")])]);
    ("remove", "/api/remove",
      JDict [("filter", JDict [("name", JStr "NonExistent User")])]);
    (* 5. count operations *)
    ("count_documents", "/api/count_documents",
      JDict [("filter", JDict [("department", JStr "Engineering")])]);
    ("estimated_document_count", "/api/estimated_document_count", JDict []);
    ("count", "/api/count",
      JDict [("filter", JDict [("salary", JDict [("$gte", JInt 80000)])])]);
    (* 6. aggregation operations; group is skipped *)
    ("aggregate", "/api/aggregate",
      JDict [("pipeline", JList
        [JDict [("$match", JDict [("status", JStr "active")])];
         JDict [("$group", JDict
           [("_id", JStr "$department");
            ("avg_salary", JDict [("$avg", JStr "$salary")]);
            ("count", JDict [("$sum", JInt 1)])])];
         JDict [("$sort", JDict [("avg_salary", JInt (-1))])]])]);
    ("map_reduce", "/api/map_reduce",
      JDict [("map", JStr "function() { emit(this.department, this.salary); }");
             ("reduce", JStr "function(key, values) { return Array.sum(values); }");
             ("out", JStr "salary_by_dept")]);
    ("inline_map_reduce", "/api/inline_map_reduce",
      JDict [("map", JStr "function() { emit(this.department, 1); }");
             ("reduce", JStr "function(key, values) { return Array.sum(values); }")]);
    (* 7. index operations: create first, drop afterwards *)
    ("create_index", "/api/create_index",
      JDict [("keys", JList [JList [JStr "email"; JInt 1]])]);
    ("create_indexes", "/api/create_indexes",
      JDict [("indexes", JList
        [JDict [("keys", JList [JList [JStr "department"; JInt 1];
                                JList [JStr "salary"; JInt (-1)]])];
         JDict [("keys", JList [JList [JStr "status"; JInt 1]])]])]);
    ("ensure_index", "/api/ensure_index",
      JDict [("keys", JList [JList [JStr "age"; JInt 1]])]);
    ("reindex", "/api/reindex", JDict []);
    ("drop_index", "/api/drop_index", JDict [("index_name", JStr "email_1")]);
    ("drop_indexes", "/api/drop_indexes", JDict []);
    (* 8. collection operations *)
    ("distinct", "/api/distinct", JDict [("field", JStr "department")]);
    ("rename", "/api/rename", JDict [("new_name", JStr "test_collection_backup")]);
    (* 9. bulk operations *)
    ("bulk_write", "/api/bulk_write",
      JDict [("operations", JList
        [JDict [("insertOne", JDict [("document", JDict
           [("name", JStr "Bulk User 1"); ("age", JInt 25);
            ("department", JStr "Temp")])])];
         JDict [("updateOne", JDict
           [("filter", JDict [("name", JStr "Bulk User 1")]);
            ("update", JDict [("$set", JDict [("bulk_tested", JBool true)])])])];
         JDict [("deleteOne", JDict
           [("filter", JDict [("name", JStr "Bulk User 1")])])]])]);
    (* 10. drop collection *)
    ("drop", "/api/drop", JDict []) ].

(** The body of [list_operations]: the category dict and the reported total. *)
Definition operations : list (string * list string) :=
  [ ("insert", ["insert_one"; "insert_many"; "insert"; "save"]);
    ("find", ["find"; "find_one"; "find_one_and_delete"; "find_one_and_replace";
              "find_one_and_update"; "find_and_modify"]);
    ("update", ["update_one"; "update_many"; "update"; "replace_one"]);
    ("delete", ["delete_one"; "delete_many"; "remove"]);
    ("count", ["count"; "count_documents"; "estimated_document_count"]);
    ("aggregation", ["aggregate"; "group"; "map_reduce"; "inline_map_reduce"]);
    ("index", ["create_index"; "create_indexes"; "ensure_index"; "drop_index";
               "drop_indexes"; "reindex"]);
    ("collection", ["distinct"; "rename"; "drop"]);
    ("bulk", ["bulk_write"]) ].

Definition list_operations_total : Z := 35.

(** Every operation name [list_operations] reports, category by category. *)
Definition supported_operations : list string :=
  flat_map snd operations.

Definition catalog_names (catalog : list Descriptor) : list string :=
  map op_name catalog.

Definition in_category (cat name : string) : bool :=
  match find (fun c => String.eqb (fst c) cat) operations with
  | Some (_, names) => existsb (String.eqb name) names
  | None => false
  end.

(** Non-structural operations, in the sense of the catalog invariant:
    the insert, find, update, delete, count and aggregation categories. *)
Definition non_structural (name : string) : bool :=
  existsb (fun cat => in_category cat name)
          ["insert"; "find"; "update"; "delete"; "count"; "aggregation"].

Definition index_creation (name : string) : bool :=
  existsb (String.eqb name) ["create_index"; "create_indexes"; "ensure_index"].

Definition index_removal (name : string) : bool :=
  existsb (String.eqb name) ["drop_index"; "drop_indexes"].

Definition index_operation (name : string) : bool := in_category "index" name.

Definition is_rename (name : string) : bool := String.eqb name "rename".
Definition is_drop (name : string) : bool := String.eqb name "drop".

(** Structural operations change collection metadata: indexes, name,
    existence. *)
Definition structural (name : string) : bool :=
  index_operation name || is_rename name || is_drop name.

(** [all_before p q l]: no element satisfying [p] sits at or after an
    element satisfying [q]. *)
Fixpoint all_before (p q : string -> bool) (l : list string) : bool :=
  match l with
  | [] => true
  | x :: rest =>
      (if q x then negb (p x) && forallb (fun y => negb (p y)) rest else true)
      && all_before p q rest
  end.

Fixpoint count_name (name : string) (l : list string) : nat :=
  match l with
  | [] => O
  | x :: rest => ((if String.eqb name x then 1 else 0) + count_name name rest)%nat
  end.

(** ** Time

    [time.time()] readings are microseconds.  A duration [(t1 - t0) * 1000]
    in milliseconds is kept as the microsecond difference [t1 - t0]. *)

(** Nearest integer to [n / d] for [0 < d], ties to the even neighbour. *)
Definition round_half_even (n d : Z) : Z :=
  let q := n / d in
  let r := n mod d in
  if 2 * r <? d then q
  else if d <? 2 * r then q + 1
  else if Z.even q then q else q + 1.

(** [round(op_time, 2)]: hundredths of a millisecond. *)
Definition round2 (micros : Z) : Z := round_half_even micros 10.

(** [round(op_time, 0)]: whole milliseconds (still a float in Python). *)
Definition round0 (micros : Z) : Z := round_half_even micros 1000.

(** How an f-string prints the float [round(x, 0)]. *)
Definition str_of_round0 (micros : Z) : string :=
  (str_of_int (round0 micros) ++ ".0")%string.

(** ** Data of the runner *)

(** An Execution Result, the dict [result_entry].  The keys [result] and
    [error] are not always present: [None] stands for an absent key,
    [Some JNull] for a key bound to Python's [None]. *)
Record ResultEntry : Type := mkResultEntry {
  operation : string;
  success : bool;
  result : option Json;
  error : option Json;
  execution_time_ms : Z
}.

Record Summary : Type := mkSummary {
  total_operations : Z;
  successful : Z;
  failed : Z;
  total_time_ms : Z
}.

(** The dicts passed to [socketio.emit('progress', ...)], by their [type]
    key.  [error] of [EvOperationComplete] is [None] when the dict has no
    [error] key. *)
Inductive ProgressEvent : Type :=
| EvStart (total : Z) (message : string)
| EvOperationStart (op : string) (current total : Z) (message : string)
| EvOperationComplete (op : string) (ok : bool) (current total : Z)
    (time_ms : Z) (err : option string) (message : string)
| EvComplete (summary : Summary) (message : string).

(** What [run_all_operations] hands to [jsonify]. *)
Record RunAllResponse : Type := mkRunAllResponse {
  ra_success : bool;
  ra_summary : Summary;
  ra_results : list ResultEntry
}.

(** ** Collaborators: driver, HTTP transport, clock *)

(** A method call on the driver's collection object: which collection the
    handle names, which method, with which arguments. *)
Record DriverCall : Type := mkDriverCall {
  dc_collection : string;
  dc_method : string;
  dc_args : list Json
}.

(** What a driver method hands back: the result objects whose attributes
    the wrappers read, or any other value. *)
Inductive DriverValue : Type :=
| InsertOneResult (inserted_id : string) (acknowledged : bool)
| DeleteResult (deleted_count : Z) (acknowledged : bool)
| DValue (j : Json).

Inductive DriverOutcome : Type :=
| DRaised (e : Exn)
| DReturned (v : DriverValue).

Inductive Method : Type := GET | POST.

Record HttpRequest : Type := mkHttpRequest {
  method : Method;
  url : string;
  json : option Json
}.

(** The text of a response: empty, a JSON document, or something
    [response.json()] rejects with the given exception. *)
Inductive ResponseBody : Type :=
| EmptyText
| JsonText (j : Json)
| InvalidText (e : Exn).

Record Response : Type := mkResponse {
  status_code : Z;
  body : ResponseBody
}.

Inductive HttpOutcome : Type :=
| HttpRaised (e : Exn)
| HttpReturned (r : Response).

(** Everything observable a run does, in the order it happens. *)
Inductive Action : Type :=
| ATime (t : Z)
| AMongo (c : DriverCall) (o : DriverOutcome)
| AHttp (r : HttpRequest) (o : HttpOutcome)
| AEmit (ev : ProgressEvent)
| AAppend (e : ResultEntry)
| APrint (line : string).

(** The environment answers from the history so far. *)
Record Env : Type := mkEnv {
  clock : list Action -> Z;
  mongo : list Action -> DriverCall -> DriverOutcome;
  transport : list Action -> HttpRequest -> HttpOutcome;
  FLASK_PORT : option string
}.

(** Process state: the shared handle [db_ops.collection] (the name of the
    collection it points at, [None] before [connect]), the closure
    variables [results] and [completed] of the run, and the trace. *)
Record State : Type := mkState {
  collection : option string;
  results : list ResultEntry;
  completed : Z;
  trace : list Action
}.

Definition log (a : Action) (s : State) : State :=
  mkState (collection s) (results s) (completed s) (trace s ++ [a]).

Definition set_collection (c : option string) (s : State) : State :=
  mkState c (results s) (completed s) (trace s).

Definition set_locals (rs : list ResultEntry) (n : Z) (s : State) : State :=
  mkState (collection s) rs n (trace s).

(** ** The monad of effects: state and exceptions *)

Definition M (A : Type) : Type := State -> (Exn + A) * State.

Definition ret {A : Type} (a : A) : M A := fun s => (inr a, s).

Definition bind {A B : Type} (m : M A) (k : A -> M B) : M B :=
  fun s =>
    match m s with
    | (inl e, s') => (inl e, s')
    | (inr a, s') => k a s'
    end.

Definition raise {A : Type} (e : Exn) : M A := fun s => (inl e, s).

Definition lift {A : Type} (r : Exn + A) : M A := fun s => (r, s).

(** [try: body except Exception as e: handler e] *)
Definition try_except {A : Type} (body : M A) (handler : Exn -> M A) : M A :=
  fun s =>
    match body s with
    | (inl e, s') => handler e s'
    | (inr a, s') => (inr a, s')
    end.

Declare Scope monad_scope.
Delimit Scope monad_scope with monad.
Notation "x <- m ;; k" := (bind m (fun x => k))
  (at level 61, m at next level, right associativity) : monad_scope.
Notation "m ;;; k" := (bind m (fun _ => k))
  (at level 61, right associativity) : monad_scope.
Local Open Scope monad_scope.

Section Runner.

Variable env : Env.

(** *** Primitive effects *)

Definition time_time : M Z :=
  fun s => let t := clock env (trace s) in (inr t, log (ATime t) s).

Definition socketio_emit (ev : ProgressEvent) : M unit :=
  fun s => (inr tt, log (AEmit ev) s).

Definition print (line : string) : M unit :=
  fun s => (inr tt, log (APrint line) s).

Definition http_send (r : HttpRequest) : M Response :=
  fun s =>
    let o := transport env (trace s) r in
    let s' := log (AHttp r o) s in
    match o with
    | HttpRaised e => (inl e, s')
    | HttpReturned resp => (inr resp, s')
    end.

Definition requests_get (u : string) : M Response :=
  http_send (mkHttpRequest GET u None).

Definition requests_post (u : string) (payload : Json) : M Response :=
  http_send (mkHttpRequest POST u (Some payload)).

(** [response.text] is truthy *)
Definition response_text (r : Response) : bool :=
  match body r with EmptyText => false | _ => true end.

(** [response.json()] *)
Definition response_json (r : Response) : Exn + Json :=
  match body r with
  | JsonText j => inr j
  | InvalidText e => inl e
  | EmptyText => inl (Exception "Expecting value: line 1 column 1 (char 0)")
  end.

(** [self.collection.meth(args)]: a driver call through the shared
    handle.  Before [connect] the handle is [None] and the attribute
    lookup raises. *)
Definition collection_call (meth : string) (args : list Json) : M DriverValue :=
  fun s =>
    match collection s with
    | None =>
        (inl (Exception ("'NoneType' object has no attribute '" ++ meth ++ "'")), s)
    | Some name =>
        let c := mkDriverCall name meth args in
        let o := mongo env (trace s) c in
        let s' := log (AMongo c o) s in
        match o with
        | DRaised e => (inl e, s')
        | DReturned v => (inr v, s')
        end
    end.

(** [self.collection = self.db[name]]: a handle on the collection
    [name]; building it contacts nobody. *)
Definition assign_collection (name : string) : M unit :=
  fun s => (inr tt, set_collection (Some name) s).

Definition class_name (v : DriverValue) : string :=
  match v with
  | InsertOneResult _ _ => "InsertOneResult"
  | DeleteResult _ _ => "DeleteResult"
  | DValue j => py_type_name j
  end.

Definition no_attribute {A : Type} (v : DriverValue) (attr : string) : Exn + A :=
  inl (Exception ("'" ++ class_name v ++ "' object has no attribute '" ++ attr ++ "'")).

Definition get_inserted_id (v : DriverValue) : Exn + string :=
  match v with
  | InsertOneResult i _ => inr i
  | _ => no_attribute v "inserted_id"
  end.

Definition get_acknowledged (v : DriverValue) : Exn + bool :=
  match v with
  | InsertOneResult _ a => inr a
  | DeleteResult _ a => inr a
  | _ => no_attribute v "acknowledged"
  end.

Definition get_deleted_count (v : DriverValue) : Exn + Z :=
  match v with
  | DeleteResult n _ => inr n
  | _ => no_attribute v "deleted_count"
  end.

(** *** [database.py]: methods of [MongoDBOperations]

    The tracer spans around the driver calls are observability only and
    are left out. *)

Definition insert_one (document : Json) : M Json :=
  r <- collection_call "insert_one" [document] ;;
  i <- lift (get_inserted_id r) ;;
  a <- lift (get_acknowledged r) ;;
  ret (JDict [("operation", JStr "insert_one");
              ("inserted_id", JStr i);
              ("acknowledged", JBool a)]).

(** [rename]: the driver refuses a [new_name] that is not a [str] before
    any round trip ([TypeError]). *)
Definition rename (new_name : Json) : M Json :=
  match new_name with
  | JStr name =>
      collection_call "rename" [new_name] ;;;
      assign_collection name ;;;
      ret (JDict [("operation", JStr "rename"); ("new_name", new_name)])
  | _ =>
      fun s =>
        match collection s with
        | None =>
            (inl (Exception "'NoneType' object has no attribute 'rename'"), s)
        | Some _ =>
            (inl (Exception "new_name must be an instance of str"), s)
        end
  end.

Definition drop : M Json :=
  collection_call "drop" [] ;;;
  ret (JDict [("operation", JStr "drop"); ("status", JStr "collection dropped")]).

Definition clear_collection : M Json :=
  r <- collection_call "delete_many" [JDict []] ;;
  n <- lift (get_deleted_count r) ;;
  ret (JDict [("operation", JStr "clear_collection"); ("deleted_count", JInt n)]).

(** *** [app.py]: endpoints

    An endpoint takes the decoded request body and returns the response
    Flask sends: [jsonify(...)] with its status. *)

Definition json_ok (data : Json) : Response :=
  mkResponse 200 (JsonText (JDict [("success", JBool true); ("data", data)])).

Definition json_error (e : Exn) : Response :=
  mkResponse 500 (JsonText (JDict [("success", JBool false); ("error", JStr (str e))])).

Definition api_insert_one (data : Json) : M Response :=
  try_except
    (document <- lift (py_get data "document" (JDict [])) ;;
     r <- insert_one document ;;
     ret (json_ok r))
    (fun e => ret (json_error e)).

Definition api_rename (data : Json) : M Response :=
  try_except
    (new_name <- lift (py_get data "new_name" JNull) ;;
     r <- rename new_name ;;
     ret (json_ok r))
    (fun e => ret (json_error e)).

Definition api_drop : M Response :=
  try_except
    (r <- drop ;;
     assign_collection "test_collection" ;;;
     ret (json_ok r))
    (fun e => ret (json_error e)).

(** *** [app.py]: the runner *)

Definition base_url : string :=
  ("http://localhost:" ++
   match FLASK_PORT env with Some p => p | None => "5000" end)%string.

(** [results.append(result_entry); completed += 1] *)
Definition append_result (e : ResultEntry) : M unit :=
  fun s =>
    (inr tt,
     log (AAppend e) (set_locals (results s ++ [e]) (completed s + 1) s)).

Definition get_completed : M Z := fun s => (inr (completed s), s).

Definition get_results : M (list ResultEntry) := fun s => (inr (results s), s).

Definition mark (ok : bool) : string := if ok then "✓" else "✗".

Definition execute_operation (total_ops index : Z) (d : Descriptor)
  : M ResultEntry :=
  op_start <- time_time ;;
  socketio_emit
    (EvOperationStart (op_name d) index total_ops
       ("Executing " ++ op_name d ++ "...")) ;;;
  try_except
    (response <-
       (if String.eqb (op_name d) "estimated_document_count"
        then requests_get (base_url ++ endpoint d)
        else requests_post (base_url ++ endpoint d) (payload d)) ;;
     result_data <-
       lift (if response_text response then response_json response
             else inr (JDict [])) ;;
     now <- time_time ;;
     let op_time := now - op_start in
     let ok := status_code response =? 200 in
     res <- lift (if ok then py_get result_data "result" JNull else inr JNull) ;;
     let result_entry :=
       mkResultEntry (op_name d) ok (Some res) None (round2 op_time) in
     result_entry <-
       (if negb ok
        then
          err <- lift (py_get result_data "error"
                         (JStr ("HTTP " ++ str_of_int (status_code response)))) ;;
          ret (mkResultEntry (operation result_entry) (success result_entry)
                 (result result_entry) (Some err)
                 (execution_time_ms result_entry))
        else ret result_entry) ;;
     append_result result_entry ;;;
     done <- get_completed ;;
     socketio_emit
       (EvOperationComplete (op_name d) ok done total_ops (round2 op_time) None
          (mark ok ++ " " ++ op_name d ++ " completed in "
             ++ str_of_round0 op_time ++ "ms")) ;;;
     ret result_entry)
    (fun e =>
       now <- time_time ;;
       let op_time := now - op_start in
       let result_entry :=
         mkResultEntry (op_name d) false None (Some (JStr (str e)))
           (round2 op_time) in
       append_result result_entry ;;;
       done <- get_completed ;;
       socketio_emit
         (EvOperationComplete (op_name d) false done total_ops (round2 op_time)
            (Some (str e))
            ("✗ " ++ op_name d ++ " failed: " ++ py_prefix 50 (str e))) ;;;
       ret result_entry).

(** [for index, (op_name, endpoint, payload) in enumerate(ops, index):]
    with the loop body's own [try]/[except]. *)
Fixpoint run_loop (total_ops index : Z) (ops : list Descriptor) : M unit :=
  match ops with
  | [] => ret tt
  | d :: rest =>
      try_except
        (execute_operation total_ops index d ;;; ret tt)
        (fun e =>
           print ("Operation " ++ op_name d ++ " failed with exception: " ++ str e)) ;;;
      run_loop total_ops (index + 1) rest
  end.

(** [sum(1 for r in results if r["success"])] *)
Definition count_successful (rs : list ResultEntry) : Z :=
  Z.of_nat (List.length (filter success rs)).

Definition len {A : Type} (l : list A) : Z := Z.of_nat (List.length l).

Definition summarize (rs : list ResultEntry) (total_time : Z) : Summary :=
  let successful := count_successful rs in
  let failed := len rs - successful in
  mkSummary (len rs) successful failed (round2 total_time).

(** The body of [run_all_operations], for any catalog. *)
Definition run_all (catalog : list Descriptor) : M RunAllResponse :=
  (fun s => (inr tt, set_locals [] 0 s)) ;;;
  start_time <- time_time ;;
  try_except (clear_collection ;;; ret tt) (fun _ => ret tt) ;;;
  let total_ops := len catalog in
  socketio_emit
    (EvStart total_ops
       ("Starting sequential execution of " ++ str_of_int total_ops
          ++ " operations...")) ;;;
  run_loop total_ops 1 catalog ;;;
  now <- time_time ;;
  let total_time := now - start_time in
  rs <- get_results ;;
  let summary := summarize rs total_time in
  socketio_emit
    (EvComplete summary
       ("Completed! " ++ str_of_int (successful summary) ++ "/"
          ++ str_of_int (len rs) ++ " operations succeeded in "
          ++ str_of_round0 total_time ++ "ms")) ;;;
  ret (mkRunAllResponse true summary rs).

Definition run_all_operations : M RunAllResponse := run_all test_operations.

End Runner.

(** * Descriptions used by the proofs *)

(** ** What one operation does *)

(** The request [execute_operation] sends for a descriptor. *)
Definition request_of (env : Env) (d : Descriptor) : HttpRequest :=
  if String.eqb (op_name d) "estimated_document_count"
  then mkHttpRequest GET (base_url env ++ endpoint d) None
  else mkHttpRequest POST (base_url env ++ endpoint d) (Some (payload d)).

(** The invariant of a result entry: the [error] key is there exactly on
    failure. *)
Definition error_iff_failed (e : ResultEntry) : Prop :=
  error e <> None <-> success e = false.

(** The actions of one call of [execute_operation] that appended [e] and
    found [completed = done] afterwards: start event, request, one or two
    clock readings, the append, and right after it the completion event
    built from [e]. *)
Definition op_block (env : Env) (total index done : Z) (d : Descriptor)
    (e : ResultEntry) (acts : list Action) : Prop :=
  exists t0 o ts err msg,
    acts =
      [ATime t0;
       AEmit (EvOperationStart (op_name d) index total
                ("Executing " ++ op_name d ++ "..."));
       AHttp (request_of env d) o]
      ++ map ATime ts
      ++ [AAppend e;
          AEmit (EvOperationComplete (op_name d) (success e) done total
                   (execution_time_ms e) err msg)]
    /\ operation e = op_name d
    /\ error_iff_failed e.

(** ** What the loop and the whole run do *)

(** The actions of the loop over [ops], starting at position [index] with
    [completed = done]: one [op_block] per descriptor, one after the other. *)
Inductive run_blocks (env : Env) (total : Z)
  : Z -> Z -> list Descriptor -> list ResultEntry -> list Action -> Prop :=
| run_blocks_nil (index done : Z) :
    run_blocks env total index done [] [] []
| run_blocks_cons (index done : Z) (d : Descriptor) (ops : list Descriptor)
    (e : ResultEntry) (es : list ResultEntry) (acts rest : list Action) :
    op_block env total index (done + 1) d e acts ->
    run_blocks env total (index + 1) (done + 1) ops es rest ->
    run_blocks env total index done (d :: ops) (e :: es) (acts ++ rest).

(** The pre-run reset: one [delete_many({})] through the handle when there
    is a handle, nothing otherwise. *)
Definition clear_actions (env : Env) (s : State) : list Action :=
  match collection s with
  | None => []
  | Some name =>
      let c := mkDriverCall name "delete_many" [JDict []] in
      [AMongo c (mongo env (trace s) c)]
  end.

(** The message of the final event. *)
Definition complete_message (summary : Summary) (rs : list ResultEntry)
    (total_time : Z) : string :=
  ("Completed! " ++ str_of_int (successful summary) ++ "/"
     ++ str_of_int (len rs) ++ " operations succeeded in "
     ++ str_of_round0 total_time ++ "ms")%string.

Definition start_message (total_ops : Z) : string :=
  ("Starting sequential execution of " ++ str_of_int total_ops
     ++ " operations...")%string.

(** ** Reading a trace *)

(** The HTTP requests of a trace, the entries appended to [results], and
    the progress events, each in order. *)
Fixpoint requests (acts : list Action) : list HttpRequest :=
  match acts with
  | [] => []
  | AHttp r _ :: rest => r :: requests rest
  | _ :: rest => requests rest
  end.

Fixpoint appended (acts : list Action) : list ResultEntry :=
  match acts with
  | [] => []
  | AAppend e :: rest => e :: appended rest
  | _ :: rest => appended rest
  end.

Fixpoint emitted (acts : list Action) : list ProgressEvent :=
  match acts with
  | [] => []
  | AEmit ev :: rest => ev :: emitted rest
  | _ :: rest => emitted rest
  end.

(** The skeleton of a run: progress events, invocations and appended
    results, without clock readings and driver calls. *)
Inductive Step : Type :=
| StStart (total : Z)
| StOperationStart (index : Z) (op : string)
| StInvoke (r : HttpRequest)
| StResult (op : string)
| StOperationComplete (op : string)
| StComplete.

Definition step_of (a : Action) : list Step :=
  match a with
  | AEmit (EvStart total _) => [StStart total]
  | AEmit (EvOperationStart op index _ _) => [StOperationStart index op]
  | AEmit (EvOperationComplete op _ _ _ _ _ _) => [StOperationComplete op]
  | AEmit (EvComplete _ _) => [StComplete]
  | AHttp r _ => [StInvoke r]
  | AAppend e => [StResult (operation e)]
  | ATime _ | AMongo _ _ | APrint _ => []
  end.

Definition steps (acts : list Action) : list Step := flat_map step_of acts.

(** The skeleton a strictly sequential pass over [ops] leaves: for each
    descriptor in turn its start event, its invocation, its result, its
    completion event. *)
Fixpoint expected_steps (env : Env) (index : Z) (ops : list Descriptor)
  : list Step :=
  match ops with
  | [] => []
  | d :: rest =>
      [StOperationStart index (op_name d);
       StInvoke (request_of env d);
       StResult (op_name d);
       StOperationComplete (op_name d)]
      ++ expected_steps env (index + 1) rest
  end.

(** The result list a run leaves behind, and the actions it adds to the
    trace. *)
Definition run_results (env : Env) (catalog : list Descriptor) (s : State)
  : list ResultEntry :=
  results (snd (run_all env catalog s)).

Definition run_actions (env : Env) (catalog : list Descriptor) (s : State)
  : list Action :=
  skipn (List.length (trace s)) (trace (snd (run_all env catalog s))).

(** ** Orderings of the catalog *)

(** Every element satisfying [p] comes strictly before every element
    satisfying [q]. *)
Definition precede (p q : string -> bool) (l : list string) : Prop :=
  forall (i j : nat) (a b : string),
    nth_error l i = Some a -> nth_error l j = Some b ->
    p a = true -> q b = true -> (i < j)%nat.

(** After [rename], nothing but [drop]. *)
Fixpoint only_drop_after_rename (l : list string) : bool :=
  match l with
  | [] => true
  | x :: rest =>
      if is_rename x then forallb is_drop rest else only_drop_after_rename rest
  end.

(** ** Concrete runs *)

(** A connected process: the handle points at [test_collection]. *)
Definition connected : State := mkState (Some "test_collection") [] 0 [].

(** A clock that advances 1.234 ms per recorded action. *)
Definition ticking (tr : list Action) : Z := 1234 * len tr.

(** The server side of the loopback: [api_insert_one] against a driver that
    acknowledges every insert. *)
Definition acknowledging : Env :=
  mkEnv ticking
    (fun _ _ => DReturned (InsertOneResult "675a1f0c9d3e2b0001a4c7e2" true))
    (fun _ _ => HttpRaised (Exception "Connection refused"))
    None.

Definition insert_one_response (data : Json) : Response :=
  match fst (api_insert_one acknowledging data connected) with
  | inr r => r
  | inl e => json_error e
  end.

(** The runner's side: every POST is answered by that endpoint. *)
Definition loopback : Env :=
  mkEnv ticking
    (fun _ _ => DReturned (DeleteResult 0 true))
    (fun _ r =>
       match json r with
       | Some data => HttpReturned (insert_one_response data)
       | None => HttpRaised (Exception "Connection refused")
       end)
    None.

(** The first descriptor of the catalog. *)
Definition insert_one_descriptor : Descriptor :=
  ("insert_one", "/api/insert_one",
   JDict [("document", JDict
     [("name", JStr "Alice Johnson"); ("age", JInt 30);
      ("email", JStr "alice@example.com"); ("status", JStr "active");
      ("department", JStr "Engineering"); ("salary", JInt 85000);
      ("tags", JList [JStr "python"; JStr "mongodb"])])]).

(** An endpoint that reports a collaborator error: status 500 and the
    error envelope. *)
Definition duplicate_key : string :=
  "E11000 duplicate key error collection: testdb.test_collection index: email_1".

Definition rejecting : Env :=
  mkEnv ticking
    (fun _ _ => DReturned (DeleteResult 0 true))
    (fun _ _ => HttpReturned (json_error (Exception duplicate_key)))
    None.

(** A transport that cannot connect. *)
Definition unreachable : string :=
  "HTTPConnectionPool(host='localhost', port=5000): Max retries exceeded with url: /api/insert_one".

Definition disconnected : Env :=
  mkEnv ticking
    (fun _ _ => DRaised (Exception "No servers found yet"))
    (fun _ _ => HttpRaised (Exception unreachable))
    None.

(** Three descriptors, the second of which the collaborator rejects; the
    pre-run reset fails too. *)
Definition third_operation : Descriptor :=
  ("count_documents", "/api/count_documents", JDict [("filter", JDict [])]).

Definition three_operations : list Descriptor :=
  [ ("insert_one", "/api/insert_one", JDict [("document", JDict [("name", JStr "A")])]);
    ("find", "/api/find", JDict [("filter", JInt 7)]);
    third_operation ].

Definition second_fails : Env :=
  mkEnv ticking
    (fun _ _ => DRaised (Exception "No servers found yet"))
    (fun _ r =>
       if String.eqb (url r) "http://localhost:5000/api/find"
       then HttpReturned (json_error (Exception "filter must be an instance of dict"))
       else HttpReturned (json_ok (JDict [("operation", JStr "done")])))
    None.

(** A driver that accepts everything. *)
Definition accepting : Env :=
  mkEnv ticking
    (fun _ _ => DReturned (DValue JNull))
    (fun _ _ => HttpRaised (Exception "Connection refused"))
    None.

(** ** From the transport's answer to the entry and the event *)

(** [response.json() if response.text else {}] *)
Definition decoded (r : Response) : Exn + Json :=
  if response_text r then response_json r else inr (JDict []).

(** What the [try] block reads from an answer: the [result] key on status
    200, the [error] key (by default [HTTP <status>]) otherwise. *)
Definition looked_up (r : Response) : Exn + Json :=
  match decoded r with
  | inl ex => inl ex
  | inr data =>
      if status_code r =? 200 then py_get data "result" JNull
      else py_get data "error" (JStr ("HTTP " ++ str_of_int (status_code r)))
  end.

(** The exception the [except] branch of [execute_operation] handles, if
    any. *)
Definition caught (o : HttpOutcome) : option Exn :=
  match o with
  | HttpRaised ex => Some ex
  | HttpReturned r =>
      match looked_up r with inl ex => Some ex | inr _ => None end
  end.

(** An answer counts as a success when it has status 200 and its text is
    empty or a JSON object. *)
Definition accepted (o : HttpOutcome) : bool :=
  match o with
  | HttpRaised _ => false
  | HttpReturned r =>
      (status_code r =? 200)
      && match body r with
         | EmptyText | JsonText (JDict _) => true
         | _ => false
         end
  end.

(** The entry for an operation [name] whose request had outcome [o] and
    took [t] hundredths of a millisecond. *)
Definition expected_entry (name : string) (o : HttpOutcome) (t : Z)
  : ResultEntry :=
  match o with
  | HttpRaised ex => mkResultEntry name false None (Some (JStr (str ex))) t
  | HttpReturned r =>
      match looked_up r with
      | inl ex => mkResultEntry name false None (Some (JStr (str ex))) t
      | inr v =>
          if status_code r =? 200
          then mkResultEntry name true (Some v) None t
          else mkResultEntry name false (Some JNull) (Some v) t
      end
  end.

(** The [operation_complete] event that goes with it. *)
Definition expected_completion (name : string) (o : HttpOutcome)
    (e : ResultEntry) (done total dt : Z) : ProgressEvent :=
  EvOperationComplete name (success e) done total (execution_time_ms e)
    (option_map str (caught o))
    (match caught o with
     | Some ex => "✗ " ++ name ++ " failed: " ++ py_prefix 50 (str ex)
     | None =>
         mark (success e) ++ " " ++ name ++ " completed in "
           ++ str_of_round0 dt ++ "ms"
     end).

Definition outcome_of (a : Action) : list HttpOutcome :=
  match a with AHttp _ o => [o] | _ => [] end.

Definition completion_of (a : Action) : list ProgressEvent :=
  match a with
  | AEmit (EvOperationComplete op ok current total t err msg) =>
      [EvOperationComplete op ok current total t err msg]
  | _ => []
  end.

Definition start_of (a : Action) : list (string * Z * Z) :=
  match a with
  | AEmit (EvOperationStart op current total _) => [(op, current, total)]
  | _ => []
  end.

Definition driver_call_of (a : Action) : list DriverCall :=
  match a with AMongo c _ => [c] | _ => [] end.

Definition printed_of (a : Action) : list string :=
  match a with APrint line => [line] | _ => [] end.

(** The outcomes of the requests of a trace, its [operation_complete]
    events, the (operation, current, total) of its [operation_start]
    events, its driver calls and its printed lines, each in order. *)
Definition outcomes (acts : list Action) : list HttpOutcome :=
  flat_map outcome_of acts.
Definition completion_events (acts : list Action) : list ProgressEvent :=
  flat_map completion_of acts.
Definition operation_starts (acts : list Action) : list (string * Z * Z) :=
  flat_map start_of acts.
Definition driver_calls (acts : list Action) : list DriverCall :=
  flat_map driver_call_of acts.
Definition printed (acts : list Action) : list string :=
  flat_map printed_of acts.

(** What the loop over [ops] leaves, operation by operation: the outcome
    of the request, the entry built from it, and the event built from
    both, with [completed] counting up from [done]. *)
Inductive run_details (total : Z)
  : Z -> list Descriptor -> list HttpOutcome -> list ResultEntry
    -> list ProgressEvent -> Prop :=
| run_details_nil (done : Z) : run_details total done [] [] [] []
| run_details_cons (done dt : Z) (d : Descriptor) (ops : list Descriptor)
    (o : HttpOutcome) (os : list HttpOutcome)
    (e : ResultEntry) (es : list ResultEntry)
    (evs : list ProgressEvent) :
    e = expected_entry (op_name d) o (execution_time_ms e) ->
    run_details total (done + 1) ops os es evs ->
    run_details total done (d :: ops) (o :: os) (e :: es)
      (expected_completion (op_name d) o e (done + 1) total dt :: evs).

(** The [operation_start] events a pass over [ops] emits from position
    [index] on. *)
Fixpoint numbered_starts (index total : Z) (ops : list Descriptor)
  : list (string * Z * Z) :=
  match ops with
  | [] => []
  | d :: rest => (op_name d, index, total) :: numbered_starts (index + 1) total rest
  end.

Definition completion_fields (ev : ProgressEvent)
  : list (string * bool * Z * Z * Z) :=
  match ev with
  | EvOperationComplete op ok current total t _ _ => [(op, ok, current, total, t)]
  | _ => []
  end.

(** (operation, success, current, total, execution_time_ms) of the
    [operation_complete] events of a trace. *)
Definition operation_completions (acts : list Action)
  : list (string * bool * Z * Z * Z) :=
  flat_map completion_fields (completion_events acts).

(** The same five fields read off the entries, numbered from [index]. *)
Fixpoint numbered_completions (index total : Z) (es : list ResultEntry)
  : list (string * bool * Z * Z * Z) :=
  match es with
  | [] => []
  | e :: rest =>
      (operation e, success e, index, total, execution_time_ms e)
      :: numbered_completions (index + 1) total rest
  end.

Definition has_error (e : ResultEntry) : bool :=
  match error e with Some _ => true | None => false end.

(** A gateway that answers 502 with an empty body. *)
Definition bad_gateway : Env :=
  mkEnv ticking
    (fun _ _ => DReturned (DeleteResult 0 true))
    (fun _ _ => HttpReturned (mkResponse 502 EmptyText))
    None.

(** * More of [app.py] and [database.py] *)

(** ** Python on decoded JSON *)

(** [bool(x)] *)
Definition py_truthy (x : Json) : bool :=
  match x with
  | JNull => false
  | JBool b => b
  | JInt n => negb (n =? 0)
  | JStr s => negb (String.eqb s "")
  | JList xs => match xs with [] => false | _ => true end
  | JDict kvs => match kvs with [] => false | _ => true end
  end.

(** [a or b], both already evaluated to values by [get] (which has no
    effect). *)
Definition py_or (a b : Json) : Json := if py_truthy a then a else b.

Fixpoint chars (s : string) : list Json :=
  match s with
  | EmptyString => []
  | String c rest => JStr (String c EmptyString) :: chars rest
  end.

(** [for x in v]: the elements of a list, the keys of a dict, the
    characters of a str; anything else is not iterable. *)
Definition py_iter (v : Json) : Exn + list Json :=
  match v with
  | JList xs => inr xs
  | JDict kvs => inr (map (fun kv => JStr (fst kv)) kvs)
  | JStr s => inr (chars s)
  | _ => inl (Exception ("'" ++ py_type_name v ++ "' object is not iterable"))
  end.

Definition is_str (k : string) (x : Json) : bool :=
  match x with JStr s => String.eqb s k | _ => false end.

(** [k in v] for a str [k]: a key of a dict, an element of a list, a
    substring of a str. *)
Definition py_in (k : string) (v : Json) : Exn + bool :=
  match v with
  | JDict kvs => inr (match assoc k kvs with Some _ => true | None => false end)
  | JList xs => inr (existsb (is_str k) xs)
  | JStr s => inr (match index 0 k s with Some _ => true | None => false end)
  | _ => inl (Exception ("argument of type '" ++ py_type_name v
                           ++ "' is not iterable"))
  end.

Definition not_subscriptable {A : Type} (v : Json) : Exn + A :=
  inl (Exception ("'" ++ py_type_name v ++ "' object is not subscriptable")).

(** [v[k]] for a str [k].  (The message for a str [v] is the one of
    CPython up to 3.10.) *)
Definition py_item (v : Json) (k : string) : Exn + Json :=
  match v with
  | JDict kvs =>
      match assoc k kvs with
      | Some x => inr x
      | None => inl (Exception ("'" ++ k ++ "'"))
      end
  | JList _ => inl (Exception "list indices must be integers or slices, not str")
  | JStr _ => inl (Exception "string indices must be integers")
  | _ => not_subscriptable v
  end.

(** [v[i]] for a small non-negative int [i]. *)
Definition py_index (v : Json) (i : nat) : Exn + Json :=
  match v with
  | JList xs =>
      match nth_error xs i with
      | Some x => inr x
      | None => inl (Exception "list index out of range")
      end
  | JStr s =>
      match nth_error (chars s) i with
      | Some x => inr x
      | None => inl (Exception "string index out of range")
      end
  | JDict _ => inl (Exception (str_of_int (Z.of_nat i)))
  | _ => not_subscriptable v
  end.

(** [len(v)] of what a driver method returned. *)
Definition py_len (v : DriverValue) : Exn + Z :=
  match v with
  | DValue (JList xs) => inr (len xs)
  | DValue (JDict kvs) => inr (len kvs)
  | DValue (JStr s) => inr (Z.of_nat (String.length s))
  | _ => inl (Exception ("object of type '" ++ class_name v ++ "' has no len()"))
  end.

(** A dict whose values come straight from the driver. *)
Definition PyDict : Type := list (string * DriverValue).

(** What [jsonify] makes of a value: JSON stays, a driver object is
    refused. *)
Definition jsonable (v : DriverValue) : Exn + Json :=
  match v with
  | DValue j => inr j
  | _ => inl (Exception ("Object of type " ++ class_name v
                           ++ " is not JSON serializable"))
  end.

Fixpoint jsonable_items (kvs : PyDict) : Exn + list (string * Json) :=
  match kvs with
  | [] => inr []
  | (k, v) :: rest =>
      match jsonable v with
      | inl e => inl e
      | inr j =>
          match jsonable_items rest with
          | inl e => inl e
          | inr js => inr ((k, j) :: js)
          end
      end
  end.

(** [jsonify({"success": True, "data": result})] *)
Definition jsonify_ok (result : PyDict) : Exn + Response :=
  match jsonable_items result with
  | inl e => inl e
  | inr items => inr (json_ok (JDict items))
  end.

(** [jsonify({"success": False, "error": msg}), 400] *)
Definition json_bad_request (msg : string) : Response :=
  mkResponse 400 (JsonText (JDict [("success", JBool false); ("error", JStr msg)])).

(** The Flask routes of [app.py] under [/api/]: path, method, view. *)
Definition routes : list (string * Method * string) :=
  [ ("/api/stats", GET, "get_stats");
    ("/api/insert_one", POST, "api_insert_one");
    ("/api/insert_many", POST, "api_insert_many");
    ("/api/insert", POST, "api_insert");
    ("/api/save", POST, "api_save");
    ("/api/find", POST, "api_find");
    ("/api/find_one", POST, "api_find_one");
    ("/api/find_one_and_delete", POST, "api_find_one_and_delete");
    ("/api/find_one_and_replace", POST, "api_find_one_and_replace");
    ("/api/find_one_and_update", POST, "api_find_one_and_update");
    ("/api/find_and_modify", POST, "api_find_and_modify");
    ("/api/update_one", POST, "api_update_one");
    ("/api/update_many", POST, "api_update_many");
    ("/api/update", POST, "api_update");
    ("/api/replace_one", POST, "api_replace_one");
    ("/api/delete_one", POST, "api_delete_one");
    ("/api/delete_many", POST, "api_delete_many");
    ("/api/remove", POST, "api_remove");
    ("/api/count", POST, "api_count");
    ("/api/count_documents", POST, "api_count_documents");
    ("/api/estimated_document_count", GET, "api_estimated_document_count");
    ("/api/aggregate", POST, "api_aggregate");
    ("/api/group", POST, "api_group");
    ("/api/map_reduce", POST, "api_map_reduce");
    ("/api/inline_map_reduce", POST, "api_inline_map_reduce");
    ("/api/create_index", POST, "api_create_index");
    ("/api/create_indexes", POST, "api_create_indexes");
    ("/api/ensure_index", POST, "api_ensure_index");
    ("/api/drop_index", POST, "api_drop_index");
    ("/api/drop_indexes", POST, "api_drop_indexes");
    ("/api/reindex", POST, "api_reindex");
    ("/api/distinct", POST, "api_distinct");
    ("/api/rename", POST, "api_rename");
    ("/api/drop", POST, "api_drop");
    ("/api/bulk_write", POST, "api_bulk_write");
    ("/api/clear", POST, "api_clear");
    ("/api/operations", GET, "list_operations");
    ("/api/run_all", POST, "run_all_operations") ].

Section Endpoints.

Variable env : Env.

(** *** [database.py] *)

(** [create_index(keys, **kwargs)]; keyword arguments travel to the driver
    as a last dict. *)
Definition create_index (keys : Json) (kwargs : list (string * Json))
  : M PyDict :=
  index_name <- collection_call env "create_index" [keys; JDict kwargs] ;;
  ret [("operation", DValue (JStr "create_index")); ("index_name", index_name)].

Definition ensure_index (key_or_list : Json) (kwargs : list (string * Json))
  : M PyDict :=
  index_name <- collection_call env "ensure_index" [key_or_list; JDict kwargs] ;;
  ret [("operation", DValue (JStr "ensure_index")); ("index_name", index_name)].

Definition drop_index (index_or_name : Json) : M PyDict :=
  collection_call env "drop_index" [index_or_name] ;;;
  ret [("operation", DValue (JStr "drop_index"));
       ("dropped", DValue index_or_name)].

Definition drop_indexes : M PyDict :=
  collection_call env "drop_indexes" [] ;;;
  ret [("operation", DValue (JStr "drop_indexes"));
       ("status", DValue (JStr "all indexes dropped"))].

Definition reindex : M PyDict :=
  r <- collection_call env "reindex" [] ;;
  ret [("operation", DValue (JStr "reindex")); ("result", r)].

Definition update (spec document multi : Json) : M PyDict :=
  r <- collection_call env "update" [spec; document; JDict [("multi", multi)]] ;;
  ret [("operation", DValue (JStr "update")); ("result", r)].

Definition remove (spec_or_id multi : Json) : M PyDict :=
  r <- collection_call env "remove" [spec_or_id; JDict [("multi", multi)]] ;;
  ret [("operation", DValue (JStr "remove")); ("result", r)].

Definition delete_one (filter_query : Json) : M Json :=
  r <- collection_call env "delete_one" [filter_query] ;;
  n <- lift (get_deleted_count r) ;;
  a <- lift (get_acknowledged r) ;;
  ret (JDict [("operation", JStr "delete_one"); ("deleted_count", JInt n);
              ("acknowledged", JBool a)]).

Definition delete_many (filter_query : Json) : M Json :=
  r <- collection_call env "delete_many" [filter_query] ;;
  n <- lift (get_deleted_count r) ;;
  a <- lift (get_acknowledged r) ;;
  ret (JDict [("operation", JStr "delete_many"); ("deleted_count", JInt n);
              ("acknowledged", JBool a)]).

Definition count_documents (filter_query : Json) : M PyDict :=
  let filter_query := py_or filter_query (JDict []) in
  n <- collection_call env "count_documents" [filter_query] ;;
  ret [("operation", DValue (JStr "count_documents")); ("count", n)].

Definition estimated_document_count : M PyDict :=
  n <- collection_call env "estimated_document_count" [] ;;
  ret [("operation", DValue (JStr "estimated_document_count")); ("count", n)].

Definition distinct (key filter_query : Json) : M PyDict :=
  let filter_query := py_or filter_query (JDict []) in
  values <- collection_call env "distinct" [key; filter_query] ;;
  n <- lift (py_len values) ;;
  ret [("operation", DValue (JStr "distinct")); ("key", DValue key);
       ("values", values); ("count", DValue (JInt n))].

(** *** [app.py] *)

(** The common shape of the endpoints: the body runs inside [try], its
    result is wrapped by [jsonify], any exception becomes a 500. *)
Definition answer (body : M PyDict) : M Response :=
  try_except
    (r <- body ;; resp <- lift (jsonify_ok r) ;; ret resp)
    (fun e => ret (json_error e)).

Definition api_clear : M Response :=
  try_except
    (r <- clear_collection env ;; ret (json_ok r))
    (fun e => ret (json_error e)).

Definition api_create_index (data : Json) : M Response :=
  answer
    (field <- lift (py_get data "field" (JStr "name")) ;;
     direction <- lift (py_get data "direction" (JInt 1)) ;;
     unique <- lift (py_get data "unique" (JBool false)) ;;
     create_index (JList [JList [field; direction]]) [("unique", unique)]).

Definition api_ensure_index (data : Json) : M Response :=
  answer
    (field <- lift (py_get data "field" (JStr "name")) ;;
     direction <- lift (py_get data "direction" (JInt 1)) ;;
     ensure_index (JList [JList [field; direction]]) []).

Definition api_drop_index (data : Json) : M Response :=
  answer
    (index_name <- lift (py_get data "index_name" JNull) ;;
     drop_index index_name).

Definition api_drop_indexes : M Response := answer drop_indexes.

Definition api_reindex : M Response := answer reindex.

Definition api_update (data : Json) : M Response :=
  answer
    (spec <- lift (py_get data "spec" (JDict [])) ;;
     document <- lift (py_get data "document" (JDict [])) ;;
     multi <- lift (py_get data "multi" (JBool false)) ;;
     update spec document multi).

Definition api_remove (data : Json) : M Response :=
  answer
    (spec <- lift (py_get data "spec" (JDict [])) ;;
     multi <- lift (py_get data "multi" (JBool false)) ;;
     remove spec multi).

Definition api_delete_one (data : Json) : M Response :=
  try_except
    (filter_query <- lift (py_get data "filter" (JDict [])) ;;
     r <- delete_one filter_query ;;
     ret (json_ok r))
    (fun e => ret (json_error e)).

Definition api_delete_many (data : Json) : M Response :=
  try_except
    (filter_query <- lift (py_get data "filter" (JDict [])) ;;
     r <- delete_many filter_query ;;
     ret (json_ok r))
    (fun e => ret (json_error e)).

Definition api_count_documents (data : Json) : M Response :=
  answer
    (filter_query <- lift (py_get data "filter" (JDict [])) ;;
     count_documents filter_query).

Definition api_estimated_document_count : M Response :=
  answer estimated_document_count.

Definition api_distinct (data : Json) : M Response :=
  answer
    (key <- lift (py_get data "key" (JStr "name")) ;;
     filter_query <- lift (py_get data "filter" (JDict [])) ;;
     distinct key filter_query).

End Endpoints.

(** ** Endpoints that build driver objects

    The classes of the driver ([InsertOne], [UpdateOne], ..., [IndexModel])
    and the attributes of its [BulkWriteResult] are not part of this
    repository: their constructors are parameters, which take the
    arguments the endpoint passes and return the object as the driver will
    see it, or raise.  So is [str] on what the driver returns. *)

(** The driver's side of these endpoints. *)
Record DriverClasses : Type := mkDriverClasses {
  InsertOne : Json -> Exn + Json;
  UpdateOne : Json -> Json -> Exn + Json;
  UpdateMany : Json -> Json -> Exn + Json;
  DeleteOne : Json -> Exn + Json;
  DeleteMany : Json -> Exn + Json;
  ReplaceOne : Json -> Json -> Exn + Json;
  IndexModel : Json -> Exn + Json;
  (** [result.name] on the [BulkWriteResult] the driver returned *)
  result_attribute : DriverValue -> string -> Exn + Json;
  (** [str(x)] for an id the driver returned *)
  py_str : DriverValue -> string
}.

Section DriverObjects.

Variable env : Env.
Variable pymongo : DriverClasses.

(** Error-monad plumbing for the pure parts. *)
Definition and_then {A B : Type} (r : Exn + A) (k : A -> Exn + B) : Exn + B :=
  match r with inl e => inl e | inr a => k a end.

(** [op.get('type') == t] as the next test of the [elif] chain. *)
Definition type_is (op : Json) (t : string) : Exn + bool :=
  and_then (py_get op "type" JNull) (fun v => inr (is_str t v)).

(** One turn of the loop of [api_bulk_write]: the operation object to
    append, or nothing when no branch matches. *)
Definition convert_operation (op : Json) : Exn + option Json :=
  and_then (py_in "insertOne" op) (fun b =>
  if b then
    and_then (py_item op "insertOne") (fun spec =>
    and_then (py_get spec "document" spec) (fun doc =>
    and_then (InsertOne pymongo doc) (fun o => inr (Some o))))
  else
  and_then (py_in "updateOne" op) (fun b =>
  if b then
    and_then (py_item op "updateOne") (fun spec =>
    and_then (py_item spec "filter") (fun f =>
    and_then (py_item op "updateOne") (fun spec' =>
    and_then (py_item spec' "update") (fun u =>
    and_then (UpdateOne pymongo f u) (fun o => inr (Some o))))))
  else
  and_then (py_in "updateMany" op) (fun b =>
  if b then
    and_then (py_item op "updateMany") (fun spec =>
    and_then (py_item spec "filter") (fun f =>
    and_then (py_item op "updateMany") (fun spec' =>
    and_then (py_item spec' "update") (fun u =>
    and_then (UpdateMany pymongo f u) (fun o => inr (Some o))))))
  else
  and_then (py_in "deleteOne" op) (fun b =>
  if b then
    and_then (py_item op "deleteOne") (fun spec =>
    and_then (py_item spec "filter") (fun f =>
    and_then (DeleteOne pymongo f) (fun o => inr (Some o))))
  else
  and_then (py_in "deleteMany" op) (fun b =>
  if b then
    and_then (py_item op "deleteMany") (fun spec =>
    and_then (py_item spec "filter") (fun f =>
    and_then (DeleteMany pymongo f) (fun o => inr (Some o))))
  else
  and_then (py_in "replaceOne" op) (fun b =>
  if b then
    and_then (py_item op "replaceOne") (fun spec =>
    and_then (py_item spec "filter") (fun f =>
    and_then (py_item op "replaceOne") (fun spec' =>
    and_then (py_item spec' "replacement") (fun r =>
    and_then (ReplaceOne pymongo f r) (fun o => inr (Some o))))))
  else
  and_then (type_is op "insert") (fun b =>
  if b then
    and_then (py_item op "document") (fun doc =>
    and_then (InsertOne pymongo doc) (fun o => inr (Some o)))
  else
  and_then (type_is op "update") (fun b =>
  if b then
    and_then (py_item op "filter") (fun f =>
    and_then (py_item op "update") (fun u =>
    and_then (UpdateOne pymongo f u) (fun o => inr (Some o))))
  else
  and_then (type_is op "delete") (fun b =>
  if b then
    and_then (py_item op "filter") (fun f =>
    and_then (DeleteOne pymongo f) (fun o => inr (Some o)))
  else
  and_then (type_is op "replace") (fun b =>
  if b then
    and_then (py_item op "filter") (fun f =>
    and_then (py_item op "replacement") (fun r =>
    and_then (ReplaceOne pymongo f r) (fun o => inr (Some o))))
  else inr None)))))))))).

(** The loop: [bulk_ops] after all of [operations], or the first
    exception. *)
Fixpoint convert_operations (operations : list Json) : Exn + list Json :=
  match operations with
  | [] => inr []
  | op :: rest =>
      and_then (convert_operation op) (fun o =>
      and_then (convert_operations rest) (fun os =>
      inr (match o with Some x => x :: os | None => os end)))
  end.

(** [database.py]: [bulk_write] *)
Definition bulk_write (requests : list Json) : M Json :=
  r <- collection_call env "bulk_write" [JList requests] ;;
  inserted <- lift (result_attribute pymongo r "inserted_count") ;;
  matched <- lift (result_attribute pymongo r "matched_count") ;;
  modified <- lift (result_attribute pymongo r "modified_count") ;;
  deleted <- lift (result_attribute pymongo r "deleted_count") ;;
  upserted <- lift (result_attribute pymongo r "upserted_count") ;;
  acknowledged <- lift (result_attribute pymongo r "acknowledged") ;;
  ret (JDict [("operation", JStr "bulk_write");
              ("inserted_count", inserted);
              ("matched_count", matched);
              ("modified_count", modified);
              ("deleted_count", deleted);
              ("upserted_count", upserted);
              ("acknowledged", acknowledged)]).

Definition api_bulk_write (data : Json) : M Response :=
  try_except
    (operations <- lift (py_get data "operations" (JList [])) ;;
     ops <- lift (py_iter operations) ;;
     bulk_ops <- lift (convert_operations ops) ;;
     match bulk_ops with
     | [] => ret (json_bad_request "No valid operations to execute")
     | _ =>
         r <- bulk_write bulk_ops ;;
         ret (json_ok r)
     end)
    (fun e => ret (json_error e)).

(** [[(k[0], k[1]) for k in keys]] *)
Fixpoint key_pairs (ks : list Json) : Exn + list Json :=
  match ks with
  | [] => inr []
  | k :: rest =>
      and_then (py_index k 0) (fun a =>
      and_then (py_index k 1) (fun b =>
      and_then (key_pairs rest) (fun ps => inr (JList [a; b] :: ps))))
  end.

Definition is_dict (x : Json) : bool :=
  match x with JDict _ => true | _ => false end.

Definition is_list (x : Json) : bool :=
  match x with JList _ => true | _ => false end.

(** [isinstance(spec, dict) and k in spec] *)
Definition dict_with (k : string) (spec : Json) : bool :=
  match spec with
  | JDict kvs => match assoc k kvs with Some _ => true | None => false end
  | _ => false
  end.

(** One turn of the loop of [api_create_indexes]. *)
Definition convert_index (spec : Json) : Exn + option Json :=
  if dict_with "keys" spec then
    and_then (py_item spec "keys") (fun ks =>
    and_then (py_iter ks) (fun ks =>
    and_then (key_pairs ks) (fun keys =>
    and_then (IndexModel pymongo (JList keys)) (fun m => inr (Some m)))))
  else
    match spec with
    | JList xs =>
        if match xs with first :: _ => is_list first | [] => false end then
          and_then (key_pairs xs) (fun keys =>
          and_then (IndexModel pymongo (JList keys)) (fun m => inr (Some m)))
        else
          and_then (py_index spec 0) (fun a =>
          and_then (py_index spec 1) (fun b =>
          and_then (IndexModel pymongo (JList [JList [a; b]])) (fun m => inr (Some m))))
    | _ =>
        if dict_with "field" spec then
          and_then (py_item spec "field") (fun f =>
          and_then (py_get spec "direction" (JInt 1)) (fun d =>
          and_then (IndexModel pymongo (JList [JList [f; d]])) (fun m => inr (Some m))))
        else inr None
    end.

Fixpoint convert_indexes (specs : list Json) : Exn + list Json :=
  match specs with
  | [] => inr []
  | spec :: rest =>
      and_then (convert_index spec) (fun m =>
      and_then (convert_indexes rest) (fun ms =>
      inr (match m with Some x => x :: ms | None => ms end)))
  end.

(** [database.py]: [create_indexes] *)
Definition create_indexes (indexes : list Json) : M PyDict :=
  names <- collection_call env "create_indexes" [JList indexes] ;;
  ret [("operation", DValue (JStr "create_indexes")); ("index_names", names)].

Definition api_create_indexes (data : Json) : M Response :=
  try_except
    (indexes_spec <- lift (py_get data "indexes" (JList [])) ;;
     specs <- lift (py_iter indexes_spec) ;;
     indexes <- lift (convert_indexes specs) ;;
     match indexes with
     | [] => ret (json_bad_request "No valid index specifications")
     | _ =>
         r <- create_indexes indexes ;;
         resp <- lift (jsonify_ok r) ;;
         ret resp
     end)
    (fun e => ret (json_error e)).

(** [database.py]: the deprecated [insert] *)
Definition insert (doc_or_docs : Json) : M Json :=
  r <- collection_call env "insert" [doc_or_docs] ;;
  match r with
  | DValue (JList ids) =>
      ret (JDict [("operation", JStr "insert");
                  ("inserted_ids", JList (map (fun i => JStr (py_str pymongo (DValue i))) ids));
                  ("count", JInt (len ids))])
  | _ =>
      ret (JDict [("operation", JStr "insert"); ("inserted_id", JStr (py_str pymongo r))])
  end.

Definition api_insert (data : Json) : M Response :=
  try_except
    (documents <- lift (py_get data "documents" JNull) ;;
     doc_or_docs <-
       (if py_truthy documents then ret documents
        else lift (py_get data "document" JNull)) ;;
     match doc_or_docs with
     | JNull => ret (json_bad_request "Missing 'document' or 'documents' field")
     | _ =>
         r <- insert doc_or_docs ;;
         ret (json_ok r)
     end)
    (fun e => ret (json_error e)).

End DriverObjects.

(** The uniform envelope of the endpoints: 200 with [success] true and
    [data], or 400/500 with [success] false and an [error] string. *)
Definition envelope (r : Response) : Prop :=
  (status_code r = 200
   /\ exists data,
        body r = JsonText (JDict [("success", JBool true); ("data", data)]))
  \/ ((status_code r = 400 \/ status_code r = 500)
      /\ exists msg,
           body r = JsonText (JDict [("success", JBool false);
                                     ("error", JStr msg)])).

(** A computation that returns whatever happens, and then an enveloped
    response. *)
Definition always_answers (m : M Response) : Prop :=
  forall s, exists resp s', m s = (inr resp, s') /\ envelope resp.

(** A computation whose normal returns are enveloped responses. *)
Definition returns_envelope (m : M Response) : Prop :=
  forall s resp s', m s = (inr resp, s') -> envelope resp.

(** A computation that leaves the shared handle where it is. *)
Definition keeps_handle {A : Type} (m : M A) : Prop :=
  forall s, collection (snd (m s)) = collection s.

(** The payload the catalog sends for an operation. *)
Definition catalog_payload (name : string) : Json :=
  match find (fun d => String.eqb (op_name d) name) test_operations with
  | Some d => payload d
  | None => JNull
  end.

(** An operation of a bulk request that no branch of the endpoint
    recognises: an object with none of the six MongoDB-style keys and no
    legacy [type]. *)
Definition unmarked (op : Json) : bool :=
  match op with
  | JDict kvs =>
      forallb (fun k => match assoc k kvs with Some _ => false | None => true end)
        ["insertOne"; "updateOne"; "updateMany"; "deleteOne"; "deleteMany";
         "replaceOne"]
      && match assoc "type" kvs with
         | Some t =>
             negb (existsb (fun k => is_str k t)
                     ["insert"; "update"; "delete"; "replace"])
         | None => true
         end
  | _ => false
  end.

(** An index specification no branch recognises: neither a list nor an
    object with [keys] or [field]. *)
Definition unrecognised_index (spec : Json) : bool :=
  negb (is_list spec) && negb (dict_with "keys" spec)
  && negb (dict_with "field" spec).

Definition option_list {A : Type} (o : option A) : list A :=
  match o with Some x => [x] | None => [] end.

(** Driver objects printed as tagged JSON, for the runs evaluated below. *)
Definition tagged1 (tag : string) (a : Json) : Exn + Json :=
  inr (JDict [(tag, JList [a])]).
Definition tagged2 (tag : string) (a b : Json) : Exn + Json :=
  inr (JDict [(tag, JList [a; b])]).
Definition no_attributes (v : DriverValue) (a : string) : Exn + Json :=
  inl (Exception ("'" ++ class_name v ++ "' object has no attribute '" ++ a ++ "'")).
Definition plain_str (v : DriverValue) : string :=
  match v with DValue (JStr s) => s | _ => class_name v end.

(** Driver classes printed as tagged JSON, for the runs evaluated below. *)
Definition printed_classes : DriverClasses :=
  mkDriverClasses (tagged1 "InsertOne") (tagged2 "UpdateOne")
    (tagged2 "UpdateMany") (tagged1 "DeleteOne") (tagged1 "DeleteMany")
    (tagged2 "ReplaceOne") (tagged1 "IndexModel") no_attributes plain_str.

(** * Proofs *)

(** ** One operation *)

Ltac unfold_monad :=
  unfold bind, try_except, lift, ret, raise, time_time, socketio_emit, print,
    append_result, get_completed, get_results, requests_get, requests_post,
    http_send, assign_collection in *.

Ltac norm_state :=
  unfold log, set_locals, set_collection;
  cbn [collection results completed trace fst snd];
  repeat rewrite <- app_assoc;
  cbn [app].

Lemma send_request_of (env : Env) (d : Descriptor) (s : State) :
  (if String.eqb (op_name d) "estimated_document_count"
   then requests_get env (base_url env ++ endpoint d)
   else requests_post env (base_url env ++ endpoint d) (payload d)) s
  = http_send env (request_of env d) s.
Proof.
  unfold request_of, requests_get, requests_post.
  destruct (String.eqb (op_name d) "estimated_document_count"); reflexivity.
Qed.

Ltac close_op_block :=
  unfold_monad; norm_state;
  do 2 eexists; split;
  [ reflexivity
  | first
      [ eexists _, _, (cons _ nil), _, _;
        split; [cbn [map app]; reflexivity|]
      | eexists _, _, (cons _ (cons _ nil)), _, _;
        split; [cbn [map app]; reflexivity|] ];
    split; [reflexivity|];
    unfold error_iff_failed; cbn [error success];
    split; first [ reflexivity | discriminate | congruence ] ].

Lemma execute_operation_spec (env : Env) (total index : Z) (d : Descriptor)
    (s : State) :
  exists e acts,
    execute_operation env total index d s
    = (inr e,
       mkState (collection s) (results s ++ [e]) (completed s + 1)
         (trace s ++ acts))
    /\ op_block env total index (completed s + 1) d e acts.
Proof.
  unfold execute_operation.
  unfold bind at 1. unfold time_time at 1. cbn beta iota zeta.
  set (t0 := clock env (trace s)).
  unfold bind at 1. unfold socketio_emit at 1. cbn beta iota zeta.
  unfold try_except, bind at 1.
  rewrite send_request_of. unfold http_send. cbn [trace log].
  destruct (transport env _ (request_of env d)) as [ex | resp].
  - (* the request itself raised *)
    close_op_block.
  - (* a response came back *)
    unfold bind at 1. unfold lift at 1.
    destruct (if response_text resp then response_json resp else inr (JDict []))
      as [ex | result_data].
    + (* its text is not JSON *)
      close_op_block.
    + unfold bind at 1. unfold time_time at 1. cbn beta iota zeta.
      unfold bind at 1. unfold lift at 1.
      destruct (status_code resp =? 200).
      * destruct result_data; cbn [py_get negb]; close_op_block.
      * cbn [negb]. unfold bind at 1. unfold bind at 1. unfold lift at 1.
        destruct result_data; cbn [py_get]; close_op_block.
Qed.

(** ** The loop and the whole run *)

Lemma len_cons {A : Type} (x : A) (l : list A) : len (x :: l) = len l + 1.
Proof. unfold len. cbn [List.length]. lia. Qed.

Lemma len_nonneg {A : Type} (l : list A) : 0 <= len l.
Proof. unfold len. lia. Qed.

Lemma run_loop_spec (env : Env) (total : Z) (ops : list Descriptor) :
  forall (index : Z) (s : State),
  exists es acts,
    run_loop env total index ops s
    = (inr tt,
       mkState (collection s) (results s ++ es) (completed s + len ops)
         (trace s ++ acts))
    /\ run_blocks env total index (completed s) ops es acts.
Proof.
  induction ops as [| d ops IH]; intros index s.
  - exists [], []. split; [| constructor].
    cbn. unfold ret, len. cbn. rewrite !app_nil_r, Z.add_0_r.
    destruct s; reflexivity.
  - destruct (execute_operation_spec env total index d s)
      as (e & acts & Hrun & Hblock).
    cbn [run_loop]. unfold bind at 1. unfold try_except. unfold bind at 1.
    rewrite Hrun. unfold ret at 1.
    destruct (IH (index + 1)
                (mkState (collection s) (results s ++ [e]) (completed s + 1)
                   (trace s ++ acts)))
      as (es & rest & Hloop & Hblocks).
    rewrite Hloop. cbn [collection results completed trace] in *.
    exists (e :: es), (acts ++ rest). split.
    + rewrite len_cons, <- !app_assoc. cbn [app].
      replace (completed s + (len ops + 1)) with (completed s + 1 + len ops)
        by lia.
      reflexivity.
    + constructor; assumption.
Qed.

(** [try: db_ops.clear_collection() except: pass] never raises and touches
    nothing but the trace. *)
Lemma clear_step_spec (env : Env) (s : State) :
  try_except (clear_collection env ;;; ret tt)%monad (fun _ => ret tt) s
  = (inr tt,
     mkState (collection s) (results s) (completed s)
       (trace s ++ clear_actions env s)).
Proof.
  unfold clear_collection, collection_call, clear_actions.
  unfold_monad.
  destruct s as [c rs n tr]. cbn [collection results completed trace].
  destruct c as [name |].
  - destruct (mongo env tr _) as [ex | v]; norm_state; [reflexivity|].
    destruct (get_deleted_count v); reflexivity.
  - rewrite app_nil_r. reflexivity.
Qed.

(** The whole run: it returns (never raises), leaves the handle alone, and
    its trace is the first clock reading, the reset, the [start] event, the
    blocks of the operations, the last clock reading and the [complete]
    event. *)
Lemma run_all_spec (env : Env) (catalog : list Descriptor) (s : State) :
  let t0 := clock env (trace s) in
  exists tN es acts,
    run_all env catalog s
    = (inr (mkRunAllResponse true (summarize es (tN - t0)) es),
       mkState (collection s) es (len catalog)
         (trace s
          ++ [ATime t0]
          ++ clear_actions env (log (ATime t0) (set_locals [] 0 s))
          ++ [AEmit (EvStart (len catalog) (start_message (len catalog)))]
          ++ acts
          ++ [ATime tN;
              AEmit (EvComplete (summarize es (tN - t0))
                       (complete_message (summarize es (tN - t0)) es (tN - t0)))]))
    /\ run_blocks env (len catalog) 1 0 catalog es acts.
Proof.
  intros t0. unfold run_all.
  unfold bind at 1. unfold bind at 1. unfold time_time at 1.
  cbn beta iota zeta.
  unfold bind at 1. rewrite clear_step_spec.
  unfold bind at 1. unfold socketio_emit at 1. cbn beta iota zeta.
  unfold bind at 1.
  match goal with
  | |- context [run_loop env ?t ?i catalog ?st] =>
      destruct (run_loop_spec env t catalog i st)
        as (es & acts & Hloop & Hblocks);
      rewrite Hloop
  end.
  unfold_monad. norm_state.
  cbn [collection results completed trace] in Hblocks.
  do 3 eexists. split; [| exact Hblocks].
  cbn [app]. rewrite Z.add_0_l. reflexivity.
Qed.

Lemma requests_app (a b : list Action) :
  requests (a ++ b) = requests a ++ requests b.
Proof.
  induction a as [| x a IH]; [reflexivity|].
  destruct x; cbn; rewrite IH; reflexivity.
Qed.

Lemma appended_app (a b : list Action) :
  appended (a ++ b) = appended a ++ appended b.
Proof.
  induction a as [| x a IH]; [reflexivity|].
  destruct x; cbn; rewrite IH; reflexivity.
Qed.

Lemma emitted_app (a b : list Action) :
  emitted (a ++ b) = emitted a ++ emitted b.
Proof.
  induction a as [| x a IH]; [reflexivity|].
  destruct x; cbn; rewrite IH; reflexivity.
Qed.

Lemma steps_app (a b : list Action) : steps (a ++ b) = steps a ++ steps b.
Proof. unfold steps. apply flat_map_app. Qed.

Lemma steps_cons (a : Action) (l : list Action) :
  steps (a :: l) = step_of a ++ steps l.
Proof. reflexivity. Qed.

Lemma clock_readings_silent (ts : list Z) :
  steps (map ATime ts) = []
  /\ requests (map ATime ts) = []
  /\ appended (map ATime ts) = []
  /\ emitted (map ATime ts) = [].
Proof.
  induction ts as [| t ts (H1 & H2 & H3 & H4)]; cbn; auto.
Qed.

Lemma clear_actions_silent (env : Env) (s : State) :
  steps (clear_actions env s) = []
  /\ requests (clear_actions env s) = []
  /\ appended (clear_actions env s) = []
  /\ emitted (clear_actions env s) = [].
Proof.
  unfold clear_actions. destruct (collection s); cbn; auto.
Qed.

Lemma op_block_facts (env : Env) (total index done : Z) (d : Descriptor)
    (e : ResultEntry) (acts : list Action) :
  op_block env total index done d e acts ->
  steps acts
  = [StOperationStart index (op_name d); StInvoke (request_of env d);
     StResult (op_name d); StOperationComplete (op_name d)]
  /\ requests acts = [request_of env d]
  /\ appended acts = [e].
Proof.
  intros (t0 & o & ts & err & msg & -> & Hop & _).
  destruct (clock_readings_silent ts) as (H1 & H2 & H3 & _).
  rewrite !steps_app, !requests_app, !appended_app, H1, H2, H3.
  cbn. rewrite Hop. auto.
Qed.

Lemma run_blocks_facts (env : Env) (total index done : Z)
    (ops : list Descriptor) (es : list ResultEntry) (acts : list Action) :
  run_blocks env total index done ops es acts ->
  map operation es = map op_name ops
  /\ Forall error_iff_failed es
  /\ steps acts = expected_steps env index ops
  /\ requests acts = map (request_of env) ops
  /\ appended acts = es.
Proof.
  induction 1 as [| index done d ops e es acts rest Hb Hbs IH].
  - cbn. auto.
  - destruct IH as (Hnames & Hwf & Hsteps & Hreq & Happ).
    destruct (op_block_facts _ _ _ _ _ _ _ Hb) as (Hs1 & Hr1 & Ha1).
    pose proof Hb as (_ & _ & _ & _ & _ & _ & Hop & Hiff).
    rewrite steps_app, requests_app, appended_app, Hs1, Hr1, Ha1.
    cbn [map expected_steps app].
    rewrite Hop, Hnames, Hsteps, Hreq, Happ.
    repeat split; auto.
Qed.

(** The run, its results and its actions in one statement. *)
Lemma run_all_facts (env : Env) (catalog : list Descriptor) (s : State) :
  exists resp s',
    run_all env catalog s = (inr resp, s')
    /\ ra_success resp = true
    /\ ra_results resp = run_results env catalog s
    /\ results s' = run_results env catalog s
    /\ collection s' = collection s
    /\ trace s' = trace s ++ run_actions env catalog s
    /\ map operation (run_results env catalog s) = map op_name catalog
    /\ Forall error_iff_failed (run_results env catalog s)
    /\ steps (run_actions env catalog s)
       = StStart (len catalog) :: expected_steps env 1 catalog ++ [StComplete]
    /\ requests (run_actions env catalog s) = map (request_of env) catalog
    /\ appended (run_actions env catalog s) = run_results env catalog s.
Proof.
  destruct (run_all_spec env catalog s) as (tN & es & acts & Hrun & Hb).
  set (t0 := clock env (trace s)) in *.
  destruct (run_blocks_facts _ _ _ _ _ _ _ Hb)
    as (Hnames & Hwf & Hsteps & Hreq & Happ).
  unfold run_results, run_actions. rewrite Hrun.
  cbn [snd results trace collection ra_results ra_success].
  do 2 eexists. split; [reflexivity|].
  rewrite skipn_app, skipn_all, Nat.sub_diag. cbn [skipn app].
  destruct (clear_actions_silent env (log (ATime t0) (set_locals [] 0 s)))
    as (Hc1 & Hc2 & Hc3 & _).
  repeat split; auto.
  - rewrite steps_cons, steps_app, steps_cons, steps_app, Hc1, Hsteps.
    reflexivity.
  - cbn [requests]. rewrite requests_app, Hc2. cbn [requests app].
    rewrite requests_app, Hreq. cbn. apply app_nil_r.
  - cbn [appended]. rewrite appended_app, Hc3. cbn [appended app].
    rewrite appended_app, Happ. cbn. apply app_nil_r.
Qed.

(** ** The catalog: claims *)

Lemma all_before_sound (p q : string -> bool) (l : list string) :
  all_before p q l = true -> precede p q l.
Proof.
  unfold precede. induction l as [| x rest IH]; intros Hall i j a b Hi Hj Hp Hq.
  - destruct i; discriminate.
  - cbn [all_before] in Hall. apply andb_true_iff in Hall as [Hx Hrest].
    destruct j as [| j].
    + cbn in Hj. injection Hj as ->. rewrite Hq in Hx.
      apply andb_true_iff in Hx as [Hpx Hnone].
      destruct i as [| i].
      * cbn in Hi. injection Hi as ->. rewrite Hp in Hpx. discriminate.
      * cbn in Hi. apply nth_error_In in Hi.
        rewrite forallb_forall in Hnone. specialize (Hnone a Hi).
        rewrite Hp in Hnone. discriminate.
    + destruct i as [| i]; [lia|].
      cbn in Hi, Hj. specialize (IH Hrest i j a b Hi Hj Hp Hq). lia.
Qed.

Lemma count_name_In (name : string) (l : list string) :
  In name l <-> (0 < count_name name l)%nat.
Proof.
  induction l as [| x rest IH]; cbn.
  - split; [tauto | lia].
  - destruct (String.eqb_spec name x) as [-> | Hne].
    + split; [lia | auto].
    + rewrite <- IH. cbn. split; [intros [H | H]; congruence || auto | auto].
Qed.

(** C3.  In [test_operations] the insert, find, update, delete, count and
    aggregation operations precede every structural one, index creation
    precedes index removal, every index operation precedes [rename], and
    [rename] precedes [drop].  But [rename] is not terminal: [bulk_write]
    sits at position 31, after [rename] (30) and before [drop] (32),
    although the comments of the catalog say that rename must be at the
    end. *)
Theorem C3_bulk_write_runs_after_rename :
  let names := catalog_names test_operations in
  precede non_structural structural names
  /\ precede index_creation index_removal names
  /\ precede index_operation is_rename names
  /\ precede is_rename is_drop names
  /\ nth_error names 30 = Some "rename"
  /\ nth_error names 31 = Some "bulk_write"
  /\ nth_error names 32 = Some "drop"
  /\ is_drop "bulk_write" = false
  /\ only_drop_after_rename names = false.
Proof.
  cbv zeta.
  repeat split; try (apply all_before_sound; vm_compute; reflexivity);
    vm_compute; reflexivity.
Qed.

(** C4 as stated does not hold: [group] is a supported operation (it is in
    the table of [list_operations]) and has no entry in the catalog, which
    skips it on purpose. *)
Lemma C4_group_is_not_in_the_catalog :
  ~ (forall name : string,
       In name supported_operations ->
       count_name name (catalog_names test_operations) = 1%nat).
Proof.
  intros H. specialize (H "group").
  assert (Hin : In "group" supported_operations).
  { apply count_name_In. vm_compute. lia. }
  specialize (H Hin). vm_compute in H. discriminate.
Qed.

(** C4, amended.  The catalog has 33 entries with pairwise different
    names; every entry names an operation of [list_operations]; and every
    operation of [list_operations] has exactly one entry, except [group],
    which has none. *)
Theorem C4_catalog_names_unique_and_supported :
  let names := catalog_names test_operations in
  NoDup names
  /\ List.length names = 33%nat
  /\ Forall (fun name => In name supported_operations) names
  /\ Forall (fun name =>
               count_name name names
               = if String.eqb name "group" then 0%nat else 1%nat)
       supported_operations.
Proof.
  cbv zeta. split; [| split; [reflexivity | split]].
  - apply (NoDup_count_occ string_dec). intros x.
    destruct (in_dec string_dec x (catalog_names test_operations)) as [Hin | Hout].
    + revert x Hin. apply Forall_forall.
      repeat (constructor; [vm_compute; lia|]). constructor.
    + apply (count_occ_not_In string_dec) in Hout. lia.
  - repeat (constructor; [apply count_name_In; vm_compute; lia|]). constructor.
  - repeat (constructor; [vm_compute; reflexivity|]). constructor.
Qed.

(** ** Two runs, evaluated *)

(** Three descriptors of which the second is rejected: success, failure,
    success, and a summary of 3 operations, 2 successful, 1 failed. *)
Example second_of_three_fails :
  map success (run_results second_fails three_operations connected)
  = [true; false; true]
  /\ fst (run_all second_fails three_operations connected)
     = inr (mkRunAllResponse true (mkSummary 3 2 1 2591)
              (run_results second_fails three_operations connected)).
Proof. split; vm_compute; reflexivity. Qed.

(** The empty catalog: [start], then [complete] with an all-zero summary. *)
Example empty_catalog_run :
  emitted (run_actions accepting [] connected)
  = [EvStart 0 "Starting sequential execution of 0 operations...";
     EvComplete (mkSummary 0 0 0 370)
       "Completed! 0/0 operations succeeded in 4.0ms"].
Proof. vm_compute. reflexivity. Qed.

(** ** The runner: claims *)

(** C1.  For every catalog (and every behaviour of the collaborators) the
    run returns, its result list has exactly one entry per descriptor, named
    after the descriptors in catalog order, the entries were appended in that
    order, and the skeleton of the run is strictly sequential: after the
    [start] event, for each descriptor in turn its [operation_start], its
    one invocation, its result and its [operation_complete], then
    [complete].  So the events of operation i all come before those of
    operation i+1 and no invocation starts before the previous operation
    has completed. *)
Theorem C1_one_result_per_descriptor_in_catalog_order
    (env : Env) (catalog : list Descriptor) (s : State) :
  exists resp s' acts,
    run_all env catalog s = (inr resp, s')
    /\ trace s' = trace s ++ acts
    /\ results s' = ra_results resp
    /\ List.length (ra_results resp) = List.length catalog
    /\ map operation (ra_results resp) = map op_name catalog
    /\ appended acts = ra_results resp
    /\ steps acts
       = StStart (len catalog) :: expected_steps env 1 catalog ++ [StComplete].
Proof.
  destruct (run_all_facts env catalog s)
    as (resp & s' & Hrun & _ & Hres & Hres' & _ & Htr & Hnames & _ & Hsteps
        & _ & Happ).
  exists resp, s', (run_actions env catalog s).
  rewrite Hres. repeat split; auto.
  rewrite <- (length_map operation), Hnames. apply length_map.
Qed.

Lemma filter_partition_length {A : Type} (f : A -> bool) (l : list A) :
  (List.length (filter f l) + List.length (filter (fun x => negb (f x)) l)
   = List.length l)%nat.
Proof.
  induction l as [| x l IH]; [reflexivity|].
  cbn. destruct (f x); cbn; lia.
Qed.

(** C5.  The summary of every run satisfies
    [successful + failed = total_operations = len(results)], [successful]
    being the number of results with [success] true and [failed] the number
    of the others. *)
Theorem C5_summary_counts_add_up
    (env : Env) (catalog : list Descriptor) (s : State) :
  exists resp s',
    run_all env catalog s = (inr resp, s')
    /\ successful (ra_summary resp) + failed (ra_summary resp)
       = total_operations (ra_summary resp)
    /\ total_operations (ra_summary resp) = len (ra_results resp)
    /\ successful (ra_summary resp) = len (filter success (ra_results resp))
    /\ failed (ra_summary resp)
       = len (filter (fun r => negb (success r)) (ra_results resp)).
Proof.
  destruct (run_all_spec env catalog s) as (tN & es & acts & Hrun & _).
  do 2 eexists. split; [exact Hrun|].
  cbn [ra_summary ra_results summarize successful failed total_operations].
  unfold count_successful, len.
  pose proof (filter_partition_length success es).
  repeat split; lia.
Qed.

(** C6.  If the operation at position k failed (whatever the reason), the
    failure is recorded in its entry under [error], the run still returns,
    and every later position j was invoked (its request is the j-th request
    of the run) and has its result in the list. *)
Theorem C6_failure_does_not_stop_later_operations
    (env : Env) (catalog : list Descriptor) (s : State)
    (k j : nat) (e_k : ResultEntry) (d_j : Descriptor) :
  nth_error (run_results env catalog s) k = Some e_k ->
  success e_k = false ->
  (k < j)%nat ->
  nth_error catalog j = Some d_j ->
  error e_k <> None
  /\ (exists resp, fst (run_all env catalog s) = inr resp)
  /\ nth_error (requests (run_actions env catalog s)) j
     = Some (request_of env d_j)
  /\ exists e_j,
       nth_error (run_results env catalog s) j = Some e_j
       /\ operation e_j = op_name d_j.
Proof.
  intros Hk Hfailed _ Hj.
  destruct (run_all_facts env catalog s)
    as (resp & s' & Hrun & _ & _ & _ & _ & _ & Hnames & Hwf & _ & Hreq & _).
  split; [| split; [| split]].
  - rewrite Forall_forall in Hwf.
    apply (Hwf e_k (nth_error_In _ _ Hk)). exact Hfailed.
  - exists resp. rewrite Hrun. reflexivity.
  - rewrite Hreq. apply map_nth_error. exact Hj.
  - pose proof (map_nth_error op_name _ _ Hj) as Hn.
    rewrite <- Hnames in Hn.
    rewrite nth_error_map in Hn.
    destruct (nth_error (run_results env catalog s) j) as [e_j |];
      [| discriminate].
    exists e_j. split; [reflexivity|]. cbn in Hn. congruence.
Qed.

Lemma C6_failure_does_not_stop_later_operations_witness :
  error (mkResultEntry "find" false (Some JNull)
           (Some (JStr "filter must be an instance of dict")) 370) <> None
  /\ (exists resp,
        fst (run_all second_fails three_operations connected) = inr resp)
  /\ nth_error (requests (run_actions second_fails three_operations connected)) 2
     = Some (request_of second_fails third_operation)
  /\ exists e_j,
       nth_error (run_results second_fails three_operations connected) 2
       = Some e_j
       /\ operation e_j = op_name third_operation.
Proof.
  apply (C6_failure_does_not_stop_later_operations
           second_fails three_operations connected 1 2
           (mkResultEntry "find" false (Some JNull)
              (Some (JStr "filter must be an instance of dict")) 370)
           third_operation).
  - vm_compute. reflexivity.
  - reflexivity.
  - lia.
  - reflexivity.
Defined.

(** C7.  The run starts by reading the clock and attempting the reset
    ([clear_collection], a [delete_many({})] through the handle) before the
    [start] event and any operation.  If that attempt raises, the next
    thing the run does is emit the [start] event: it goes on, executes
    every descriptor and returns the full result list. *)
Theorem C7_failed_clear_is_ignored
    (env : Env) (catalog : list Descriptor) (s : State) (ex : Exn) :
  let t0 := clock env (trace s) in
  let s1 := log (ATime t0) (set_locals [] 0 s) in
  fst (clear_collection env s1) = inl ex ->
  exists resp s' rest,
    run_all env catalog s = (inr resp, s')
    /\ trace s'
       = trace s
         ++ ATime t0
         :: clear_actions env s1
         ++ AEmit (EvStart (len catalog) (start_message (len catalog)))
         :: rest
    /\ steps rest = expected_steps env 1 catalog ++ [StComplete]
    /\ ra_success resp = true
    /\ map operation (ra_results resp) = map op_name catalog.
Proof.
  intros t0 s1 _.
  destruct (run_all_spec env catalog s) as (tN & es & acts & Hrun & Hb).
  destruct (run_blocks_facts _ _ _ _ _ _ _ Hb) as (Hnames & _ & Hsteps & _ & _).
  do 3 eexists. split; [exact Hrun|].
  cbn [trace ra_results ra_success]. fold t0. fold s1.
  split; [cbn [app]; reflexivity|].
  split; [| split; [reflexivity | exact Hnames]].
  rewrite steps_app, Hsteps. reflexivity.
Qed.

Lemma C7_failed_clear_is_ignored_witness :
  exists resp s' rest,
    run_all disconnected three_operations connected = (inr resp, s')
    /\ trace s'
       = trace connected
         ++ ATime (clock disconnected (trace connected))
         :: clear_actions disconnected
              (log (ATime (clock disconnected (trace connected)))
                 (set_locals [] 0 connected))
         ++ AEmit (EvStart (len three_operations)
                     (start_message (len three_operations)))
         :: rest
    /\ steps rest = expected_steps disconnected 1 three_operations ++ [StComplete]
    /\ ra_success resp = true
    /\ map operation (ra_results resp) = map op_name three_operations.
Proof.
  apply (C7_failed_clear_is_ignored disconnected three_operations connected
           (Exception "No servers found yet")).
  vm_compute. reflexivity.
Defined.

(** C9.  Every entry of the result list of every run has an [error] key
    if and only if its [success] flag is false. *)
Theorem C9_error_key_iff_not_success
    (env : Env) (catalog : list Descriptor) (s : State) :
  exists resp s',
    run_all env catalog s = (inr resp, s')
    /\ Forall (fun e => error e <> None <-> success e = false)
         (ra_results resp).
Proof.
  destruct (run_all_facts env catalog s)
    as (resp & s' & Hrun & _ & Hres & _ & _ & _ & _ & Hwf & _).
  exists resp, s'. split; [exact Hrun|]. rewrite Hres. exact Hwf.
Qed.

(** Whenever an endpoint answers with its success envelope
    [{"success": True, "data": data}], the entry is a success whose
    [result] is [None]: the runner reads the key [result], which no
    endpoint sets. *)
Lemma success_envelope_result_is_none
    (env : Env) (total index : Z) (d : Descriptor) (s : State) (data : Json) :
  (forall tr, transport env tr (request_of env d) = HttpReturned (json_ok data)) ->
  exists e s',
    execute_operation env total index d s = (inr e, s')
    /\ success e = true
    /\ result e = Some JNull.
Proof.
  intros Hanswer.
  unfold execute_operation.
  unfold bind at 1. unfold time_time at 1. cbn beta iota zeta.
  unfold bind at 1. unfold socketio_emit at 1. cbn beta iota zeta.
  unfold try_except, bind at 1.
  rewrite send_request_of. unfold http_send. cbn [trace log].
  rewrite Hanswer.
  unfold_monad. cbn. do 2 eexists. split; [reflexivity|]. split; reflexivity.
Qed.

(** C2.  A successful operation should yield an entry with [success] true,
    the payload the endpoint returned and the elapsed time.  The first
    descriptor of the catalog, run against the loopback in which
    [api_insert_one] succeeds: the endpoint answers 200 with the driver's
    result under [data], the entry has [success] true and an elapsed time,
    but its [result] is [None].  The runner reads the key [result] where
    the endpoints write [data], so the payload is lost. *)
Theorem C2_success_entry_loses_the_payload :
  exists e s',
    hd_error test_operations = Some insert_one_descriptor
    /\ insert_one_response (payload insert_one_descriptor)
       = json_ok (JDict [("operation", JStr "insert_one");
                         ("inserted_id", JStr "675a1f0c9d3e2b0001a4c7e2");
                         ("acknowledged", JBool true)])
    /\ execute_operation loopback 33 1 insert_one_descriptor connected
       = (inr e, s')
    /\ success e = true
    /\ execution_time_ms e = 370
    /\ result e = Some JNull.
Proof.
  do 2 eexists.
  split; [reflexivity|]. split; [reflexivity|].
  split; [vm_compute; reflexivity|].
  repeat split.
Qed.

(** When an endpoint answers with another status than 200 and a JSON
    object, the entry keeps the reported error but the completion event has
    no [error] key and its message does not mention the error. *)
Lemma http_failure_event_has_no_error
    (env : Env) (total index : Z) (d : Descriptor) (s : State)
    (status : Z) (kvs : list (string * Json)) :
  (forall tr, transport env tr (request_of env d)
              = HttpReturned (mkResponse status (JsonText (JDict kvs)))) ->
  status <> 200 ->
  exists e s' before t,
    execute_operation env total index d s = (inr e, s')
    /\ success e = false
    /\ error e
       = Some (match assoc "error" kvs with
               | Some v => v
               | None => JStr ("HTTP " ++ str_of_int status)
               end)
    /\ trace s'
       = before
         ++ [AAppend e;
             AEmit (EvOperationComplete (op_name d) false (completed s + 1)
                      total (execution_time_ms e) None
                      ("✗ " ++ op_name d ++ " completed in "
                         ++ str_of_round0 t ++ "ms"))].
Proof.
  intros Hanswer Hstatus.
  unfold execute_operation.
  unfold bind at 1. unfold time_time at 1. cbn beta iota zeta.
  unfold bind at 1. unfold socketio_emit at 1. cbn beta iota zeta.
  unfold try_except, bind at 1.
  rewrite send_request_of. unfold http_send. cbn [trace log].
  rewrite Hanswer.
  unfold_monad.
  cbn [response_text response_json body status_code].
  apply Z.eqb_neq in Hstatus. rewrite Hstatus.
  cbn [negb py_get]. norm_state.
  eexists _, _, (trace s ++ [_; _; _; _]), _.
  split; [reflexivity|]. cbn [success error execution_time_ms mark].
  split; [reflexivity|]. split; [reflexivity|].
  rewrite <- app_assoc. reflexivity.
Qed.

(** C8.  The [operation_complete] event of a failed operation should carry
    a truncated error message.  An endpoint that reports a collaborator
    error (status 500 with the error envelope): the entry is a failure that
    keeps the full error, and the [operation_complete] event comes right
    after it with the success flag and the elapsed time, but without any
    error text.  The sibling path, a request that raises, does put the
    error in the event: in full under [error] and cut to 50 characters in
    the message. *)
Theorem C8_http_failure_event_has_no_error_message :
  (exists e s',
     execute_operation rejecting 33 1 insert_one_descriptor connected
     = (inr e, s')
     /\ success e = false
     /\ error e = Some (JStr duplicate_key)
     /\ skipn 4 (trace s')
        = [AAppend e;
           AEmit (EvOperationComplete "insert_one" false 1 33 370 None
                    "✗ insert_one completed in 4.0ms")])
  /\ (exists e s',
        execute_operation disconnected 33 1 insert_one_descriptor connected
        = (inr e, s')
        /\ success e = false
        /\ error e = Some (JStr unreachable)
        /\ skipn 4 (trace s')
           = [AAppend e;
              AEmit (EvOperationComplete "insert_one" false 1 33 370
                       (Some unreachable)
                       "✗ insert_one failed: HTTPConnectionPool(host='localhost', port=5000): M")]).
Proof.
  split; do 2 eexists; (split; [vm_compute; reflexivity|]); repeat split.
Qed.

(** ** The shared handle *)

(** Every driver call goes to the collection the handle names at that
    moment, and leaves the handle where it is. *)
Lemma collection_call_targets_handle
    (env : Env) (meth : string) (args : list Json) (s : State) (name : string) :
  collection s = Some name ->
  snd (collection_call env meth args s)
  = log (AMongo (mkDriverCall name meth args)
           (mongo env (trace s) (mkDriverCall name meth args))) s.
Proof.
  intros Hc. unfold collection_call. rewrite Hc.
  destruct (mongo env (trace s) _); reflexivity.
Qed.

(** C10.  When [rename] returns, the shared handle names the new
    collection, so the driver calls that follow go to it; and when the drop
    endpoint answers 200, the shared handle names [test_collection],
    whatever it named before. *)
Theorem C10_rename_and_drop_move_the_shared_handle (env : Env) :
  (forall (new_name : Json) (s : State) (r : Json) (s1 : State),
      rename env new_name s = (inr r, s1) ->
      exists name,
        new_name = JStr name
        /\ collection s1 = Some name
        /\ forall (meth : string) (args : list Json),
             snd (collection_call env meth args s1)
             = log (AMongo (mkDriverCall name meth args)
                      (mongo env (trace s1) (mkDriverCall name meth args))) s1)
  /\ (forall (s : State) (resp : Response) (s' : State),
        api_drop env s = (inr resp, s') ->
        status_code resp = 200 ->
        collection s' = Some "test_collection").
Proof.
  split.
  - intros new_name s r s1 Hrename.
    assert (Hname : exists name, new_name = JStr name /\ collection s1 = Some name).
    { unfold rename in Hrename.
      destruct new_name as [| b | n | name | xs | kvs];
        try (destruct (collection s); discriminate).
      exists name. split; [reflexivity|].
      unfold collection_call in Hrename. unfold_monad.
      destruct (collection s) as [old |]; [| discriminate].
      destruct (mongo env (trace s) _); [discriminate|].
      injection Hrename as _ <-. reflexivity. }
    destruct Hname as (name & -> & Hc).
    exists name. repeat split; auto.
    intros meth args. apply collection_call_targets_handle. exact Hc.
  - intros s resp s' Hdrop Hok.
    unfold api_drop, drop, collection_call in Hdrop. unfold_monad.
    destruct (collection s) as [old |].
    + destruct (mongo env (trace s) _).
      * injection Hdrop as <- _. discriminate.
      * injection Hdrop as _ <-. reflexivity.
    + injection Hdrop as <- _. discriminate.
Qed.

Lemma C10_rename_and_drop_move_the_shared_handle_witness :
  collection (snd (rename accepting (JStr "test_collection_backup") connected))
  = Some "test_collection_backup"
  /\ collection
       (snd (api_drop accepting
               (snd (rename accepting (JStr "test_collection_backup") connected))))
     = Some "test_collection".
Proof.
  destruct (C10_rename_and_drop_move_the_shared_handle accepting)
    as [Hrename Hdrop].
  split.
  - destruct (Hrename (JStr "test_collection_backup") connected
                (JDict [("operation", JStr "rename");
                        ("new_name", JStr "test_collection_backup")])
                (snd (rename accepting (JStr "test_collection_backup") connected))
                eq_refl)
      as (name & Hname & Hc & _).
    injection Hname as <-. exact Hc.
  - apply (Hdrop (snd (rename accepting (JStr "test_collection_backup") connected))
             (json_ok (JDict [("operation", JStr "drop");
                              ("status", JStr "collection dropped")])));
      reflexivity.
Defined.

(** * More of the runner and of the endpoints *)

Ltac close_op_detail :=
  unfold_monad; norm_state;
  eexists _, _, _, _; split; [reflexivity|];
  split;
  [ first
      [ eexists _, _, (cons _ nil), _, _;
        split; [cbn [map app]; reflexivity|]
      | eexists _, _, (cons _ (cons _ nil)), _, _;
        split; [cbn [map app]; reflexivity|] ];
    split; [reflexivity|];
    unfold error_iff_failed; cbn [error success];
    split; first [ reflexivity | discriminate | congruence ]
  | ].

Lemma execute_operation_detail (env : Env) (total index : Z) (d : Descriptor)
    (s : State) :
  exists e acts o dt,
    execute_operation env total index d s
    = (inr e,
       mkState (collection s) (results s ++ [e]) (completed s + 1)
         (trace s ++ acts))
    /\ op_block env total index (completed s + 1) d e acts
    /\ outcomes acts = [o]
    /\ e = expected_entry (op_name d) o (execution_time_ms e)
    /\ completion_events acts
       = [expected_completion (op_name d) o e (completed s + 1) total dt].
Proof.
  unfold execute_operation.
  unfold bind at 1. unfold time_time at 1. cbn beta iota zeta.
  set (t0 := clock env (trace s)).
  unfold bind at 1. unfold socketio_emit at 1. cbn beta iota zeta.
  unfold try_except, bind at 1.
  rewrite send_request_of. unfold http_send. cbn [trace log].
  destruct (transport env _ (request_of env d)) as [ex | resp].
  - close_op_detail.
    split; [cbn; reflexivity|].
    cbn. split; reflexivity.
  - unfold bind at 1. unfold lift at 1.
    destruct (if response_text resp then response_json resp else inr (JDict []))
      as [ex | result_data] eqn:Hdec.
    + close_op_detail.
      split; [cbn; reflexivity|].
      unfold expected_entry, expected_completion, caught, looked_up, decoded.
      rewrite Hdec. cbn. split; reflexivity.
    + unfold bind at 1. unfold time_time at 1. cbn beta iota zeta.
      unfold bind at 1. unfold lift at 1.
      destruct (status_code resp =? 200) eqn:Hok.
      * destruct result_data; cbn [py_get negb]; close_op_detail;
          (split; [cbn; reflexivity|]);
          unfold expected_entry, expected_completion, caught, looked_up, decoded;
          rewrite Hdec, Hok; cbn; split; reflexivity.
      * cbn [negb]. unfold bind at 1. unfold bind at 1. unfold lift at 1.
        destruct result_data; cbn [py_get]; close_op_detail;
          (split; [cbn; reflexivity|]);
          unfold expected_entry, expected_completion, caught, looked_up, decoded;
          rewrite Hdec, Hok; cbn; split; reflexivity.
  Unshelve. all: exact 0.
Qed.

Lemma outcomes_app (a b : list Action) :
  outcomes (a ++ b) = outcomes a ++ outcomes b.
Proof. apply flat_map_app. Qed.

Lemma completion_events_app (a b : list Action) :
  completion_events (a ++ b) = completion_events a ++ completion_events b.
Proof. apply flat_map_app. Qed.

Lemma operation_starts_app (a b : list Action) :
  operation_starts (a ++ b) = operation_starts a ++ operation_starts b.
Proof. apply flat_map_app. Qed.

Lemma driver_calls_app (a b : list Action) :
  driver_calls (a ++ b) = driver_calls a ++ driver_calls b.
Proof. apply flat_map_app. Qed.

Lemma printed_app (a b : list Action) :
  printed (a ++ b) = printed a ++ printed b.
Proof. apply flat_map_app. Qed.

Lemma clock_readings_quiet (ts : list Z) :
  operation_starts (map ATime ts) = []
  /\ driver_calls (map ATime ts) = []
  /\ printed (map ATime ts) = [].
Proof. induction ts as [| t ts (H1 & H2 & H3)]; cbn; auto. Qed.

Lemma run_loop_detail (env : Env) (total : Z) (ops : list Descriptor) :
  forall (index : Z) (s : State),
  exists es acts os evs,
    run_loop env total index ops s
    = (inr tt,
       mkState (collection s) (results s ++ es) (completed s + len ops)
         (trace s ++ acts))
    /\ run_blocks env total index (completed s) ops es acts
    /\ outcomes acts = os
    /\ completion_events acts = evs
    /\ run_details total (completed s) ops os es evs.
Proof.
  induction ops as [| d ops IH]; intros index s.
  - exists [], [], [], []. split; [| repeat split; constructor].
    cbn. unfold ret, len. cbn. rewrite !app_nil_r, Z.add_0_r.
    destruct s; reflexivity.
  - destruct (execute_operation_detail env total index d s)
      as (e & acts & o & dt & Hrun & Hblock & Ho & He & Hev).
    cbn [run_loop]. unfold bind at 1. unfold try_except. unfold bind at 1.
    rewrite Hrun. unfold ret at 1.
    destruct (IH (index + 1)
                (mkState (collection s) (results s ++ [e]) (completed s + 1)
                   (trace s ++ acts)))
      as (es & rest & os & evs & Hloop & Hblocks & Hos & Hevs & Hdet).
    rewrite Hloop. cbn [collection results completed trace] in *.
    exists (e :: es), (acts ++ rest), (o :: os),
      (expected_completion (op_name d) o e (completed s + 1) total dt :: evs).
    split.
    + rewrite len_cons, <- !app_assoc. cbn [app].
      replace (completed s + (len ops + 1)) with (completed s + 1 + len ops)
        by lia.
      reflexivity.
    + split; [constructor; assumption|].
      rewrite outcomes_app, completion_events_app, Ho, Hev, Hos, Hevs.
      split; [reflexivity|]. split; [reflexivity|].
      constructor; assumption.
Qed.

(** The whole run, with the details of its operations. *)
Lemma run_all_detail (env : Env) (catalog : list Descriptor) (s : State) :
  let t0 := clock env (trace s) in
  exists tN es acts os evs,
    run_all env catalog s
    = (inr (mkRunAllResponse true (summarize es (tN - t0)) es),
       mkState (collection s) es (len catalog)
         (trace s ++ run_actions env catalog s))
    /\ run_results env catalog s = es
    /\ run_actions env catalog s
       = ATime t0
         :: clear_actions env (log (ATime t0) (set_locals [] 0 s))
         ++ AEmit (EvStart (len catalog) (start_message (len catalog)))
         :: acts
         ++ [ATime tN;
             AEmit (EvComplete (summarize es (tN - t0))
                      (complete_message (summarize es (tN - t0)) es (tN - t0)))]
    /\ run_blocks env (len catalog) 1 0 catalog es acts
    /\ outcomes acts = os
    /\ completion_events acts = evs
    /\ run_details (len catalog) 0 catalog os es evs.
Proof.
  intros t0.
  assert (Hrun : exists tN es acts os evs,
    run_all env catalog s
    = (inr (mkRunAllResponse true (summarize es (tN - t0)) es),
       mkState (collection s) es (len catalog)
         (trace s
          ++ ATime t0
          :: clear_actions env (log (ATime t0) (set_locals [] 0 s))
          ++ AEmit (EvStart (len catalog) (start_message (len catalog)))
          :: acts
          ++ [ATime tN;
              AEmit (EvComplete (summarize es (tN - t0))
                       (complete_message (summarize es (tN - t0)) es (tN - t0)))]))
    /\ run_blocks env (len catalog) 1 0 catalog es acts
    /\ outcomes acts = os
    /\ completion_events acts = evs
    /\ run_details (len catalog) 0 catalog os es evs).
  { unfold run_all.
    unfold bind at 1. unfold bind at 1. unfold time_time at 1.
    cbn beta iota zeta.
    unfold bind at 1. rewrite clear_step_spec.
    unfold bind at 1. unfold socketio_emit at 1. cbn beta iota zeta.
    unfold bind at 1.
    match goal with
    | |- context [run_loop env ?t ?i catalog ?st] =>
        destruct (run_loop_detail env t catalog i st)
          as (es & acts & os & evs & Hloop & Hblocks & Hos & Hevs & Hdet);
        rewrite Hloop
    end.
    unfold_monad. norm_state.
    cbn [collection results completed trace] in Hblocks, Hdet.
    eexists _, es, acts, os, evs. split; [| repeat split; assumption].
    cbn [app]. rewrite Z.add_0_l. reflexivity. }
  destruct Hrun as (tN & es & acts & os & evs & Hrun & Hrest).
  exists tN, es, acts, os, evs.
  unfold run_results, run_actions. rewrite Hrun.
  cbn [snd results trace].
  rewrite skipn_app, skipn_all, Nat.sub_diag. cbn [skipn app].
  repeat split; try apply Hrest.
Qed.

Lemma op_block_quiet (env : Env) (total index done : Z) (d : Descriptor)
    (e : ResultEntry) (acts : list Action) :
  op_block env total index done d e acts ->
  operation_starts acts = [(op_name d, index, total)]
  /\ driver_calls acts = []
  /\ printed acts = [].
Proof.
  intros (t0 & o & ts & err & msg & -> & _ & _).
  destruct (clock_readings_quiet ts) as (H1 & H2 & H3).
  rewrite !operation_starts_app, !driver_calls_app, !printed_app, H1, H2, H3.
  cbn. auto.
Qed.

Lemma run_blocks_quiet (env : Env) (total index done : Z)
    (ops : list Descriptor) (es : list ResultEntry) (acts : list Action) :
  run_blocks env total index done ops es acts ->
  operation_starts acts = numbered_starts index total ops
  /\ driver_calls acts = []
  /\ printed acts = [].
Proof.
  induction 1 as [| index done d ops e es acts rest Hb Hbs (H1 & H2 & H3)].
  - cbn. auto.
  - destruct (op_block_quiet _ _ _ _ _ _ _ Hb) as (Hs & Hd & Hp).
    rewrite operation_starts_app, driver_calls_app, printed_app,
      Hs, Hd, Hp, H1, H2, H3.
    cbn. auto.
Qed.

Lemma expected_entry_operation (name : string) (o : HttpOutcome) (t : Z) :
  operation (expected_entry name o t) = name.
Proof.
  unfold expected_entry. destruct o as [ex | r]; [reflexivity|].
  destruct (looked_up r); [reflexivity|].
  destruct (status_code r =? 200); reflexivity.
Qed.

Lemma expected_entry_success (name : string) (o : HttpOutcome) (t : Z) :
  success (expected_entry name o t) = accepted o.
Proof.
  unfold expected_entry, accepted, looked_up, decoded, response_text,
    response_json.
  destruct o as [ex | r]; [reflexivity|].
  destruct (body r) as [| j | ex]; destruct (status_code r =? 200) eqn:Hok;
    cbn; rewrite ?Hok; try reflexivity;
    destruct j; cbn; rewrite ?Hok; reflexivity.
Qed.

Lemma run_details_fields (total done : Z) (ops : list Descriptor)
    (os : list HttpOutcome) (es : list ResultEntry) (evs : list ProgressEvent) :
  run_details total done ops os es evs ->
  map success es = map accepted os
  /\ flat_map completion_fields evs = numbered_completions (done + 1) total es.
Proof.
  induction 1 as [| done dt d ops o os e es evs He Hdet (IH1 & IH2)].
  - auto.
  - cbn [map flat_map numbered_completions expected_completion
           completion_fields app].
    rewrite IH1, IH2. split.
    + f_equal. rewrite He. apply expected_entry_success.
    + f_equal. f_equal. f_equal. f_equal. f_equal.
      rewrite He. symmetry. apply expected_entry_operation.
Qed.

Lemma run_details_nth (total done : Z) (ops : list Descriptor)
    (os : list HttpOutcome) (es : list ResultEntry) (evs : list ProgressEvent) :
  run_details total done ops os es evs ->
  forall (j : nat) (o : HttpOutcome),
    nth_error os j = Some o ->
    exists d e dt,
      nth_error ops j = Some d
      /\ nth_error es j = Some e
      /\ e = expected_entry (op_name d) o (execution_time_ms e)
      /\ nth_error evs j
         = Some (expected_completion (op_name d) o e
                   (done + Z.of_nat j + 1) total dt).
Proof.
  induction 1 as [| done dt d ops o os e es evs He Hdet IH]; intros j o' Hj.
  - destruct j; discriminate.
  - destruct j as [| j].
    + cbn in Hj. injection Hj as <-. exists d, e, dt. cbn.
      rewrite Z.add_0_r. auto.
    + cbn in Hj. destruct (IH j o' Hj) as (d' & e' & dt' & H1 & H2 & H3 & H4).
      exists d', e', dt'. cbn [nth_error]. repeat split; auto.
      rewrite H4. do 2 f_equal. lia.
Qed.

(** The requests of a run are those of its operations, and so are its
    completion events. *)
Lemma run_actions_projections (env : Env) (catalog : list Descriptor)
    (s : State) (t0 tN : Z) (c acts : list Action) (sm : Summary) (msg m0 : string) :
  (c = [] \/ exists dc o, c = [AMongo dc o]) ->
  run_actions env catalog s
  = ATime t0 :: c ++ AEmit (EvStart (len catalog) m0) :: acts
      ++ [ATime tN; AEmit (EvComplete sm msg)] ->
  outcomes (run_actions env catalog s) = outcomes acts
  /\ completion_events (run_actions env catalog s) = completion_events acts
  /\ operation_starts (run_actions env catalog s) = operation_starts acts
  /\ printed (run_actions env catalog s) = printed acts
  /\ driver_calls (run_actions env catalog s) = driver_calls c ++ driver_calls acts.
Proof.
  intros Hc ->.
  change (ATime t0 :: ?l) with ([ATime t0] ++ l).
  change (AEmit (EvStart (len catalog) m0) :: ?l)
    with ([AEmit (EvStart (len catalog) m0)] ++ l).
  rewrite !outcomes_app, !completion_events_app, !operation_starts_app,
    !printed_app, !driver_calls_app.
  destruct Hc as [-> | (dc & o & ->)]; cbn; rewrite !app_nil_r; auto.
Qed.

Lemma clear_actions_shape (env : Env) (s : State) :
  clear_actions env s = [] \/ exists dc o, clear_actions env s = [AMongo dc o].
Proof.
  unfold clear_actions. destruct (collection s); [right | left]; eauto.
Qed.

Ltac run_detail env catalog s :=
  let tN := fresh "tN" in let es := fresh "es" in let acts := fresh "acts" in
  let os := fresh "os" in let evs := fresh "evs" in
  let Hrun := fresh "Hrun" in let Hres := fresh "Hres" in
  let Hacts := fresh "Hacts" in let Hb := fresh "Hb" in
  let Hos := fresh "Hos" in let Hevs := fresh "Hevs" in
  let Hdet := fresh "Hdet" in
  let Ho := fresh "Ho" in let Hc := fresh "Hc" in let Hst := fresh "Hst" in
  let Hpr := fresh "Hpr" in let Hdc := fresh "Hdc" in
  destruct (run_all_detail env catalog s)
    as (tN & es & acts & os & evs & Hrun & Hres & Hacts & Hb & Hos & Hevs & Hdet);
  destruct (run_actions_projections env catalog s _ _ _ _ _ _ _
              (clear_actions_shape env _) Hacts)
    as (Ho & Hc & Hst & Hpr & Hdc).

(** X1.  In every run the [operation_start] events number the operations
    1, 2, ... in catalog order, and the [operation_complete] events carry,
    in the same order and with the same numbers, the name, the success
    flag and the elapsed time of the entries of the result list; [total]
    is the length of the catalog throughout. *)
Theorem progress_events_number_the_operations
    (env : Env) (catalog : list Descriptor) (s : State) :
  operation_starts (run_actions env catalog s)
  = numbered_starts 1 (len catalog) catalog
  /\ operation_completions (run_actions env catalog s)
     = numbered_completions 1 (len catalog) (run_results env catalog s).
Proof.
  run_detail env catalog s.
  destruct (run_blocks_quiet _ _ _ _ _ _ _ Hb) as (Hstarts & _ & _).
  destruct (run_details_fields _ _ _ _ _ _ Hdet) as (_ & Hfields).
  unfold operation_completions.
  rewrite Hst, Hc, Hres, Hevs. auto.
Qed.

(** X2.  In every run the j-th entry is a success exactly when the j-th
    request was answered with status 200 and a text that is empty or a
    JSON object; a 200 answer with any other text is recorded as a
    failure. *)
Theorem success_iff_200_and_object
    (env : Env) (catalog : list Descriptor) (s : State) :
  map success (run_results env catalog s)
  = map accepted (outcomes (run_actions env catalog s)).
Proof.
  run_detail env catalog s.
  destruct (run_details_fields _ _ _ _ _ _ Hdet) as (Hsucc & _).
  rewrite Ho, Hres, Hos. exact Hsucc.
Qed.

(** X3.  When a request is answered with another status than 200 and the
    text is empty or a JSON object without an [error] key, the entry is a
    failure whose error is [HTTP <status>] and whose result is [None]. *)
Theorem missing_error_key_falls_back_to_status
    (env : Env) (catalog : list Descriptor) (s : State)
    (j : nat) (r : Response) :
  nth_error (outcomes (run_actions env catalog s)) j = Some (HttpReturned r) ->
  status_code r <> 200 ->
  (body r = EmptyText
   \/ exists kvs, body r = JsonText (JDict kvs) /\ assoc "error" kvs = None) ->
  exists e,
    nth_error (run_results env catalog s) j = Some e
    /\ success e = false
    /\ result e = Some JNull
    /\ error e = Some (JStr ("HTTP " ++ str_of_int (status_code r))).
Proof.
  intros Hj Hstatus Hbody.
  run_detail env catalog s.
  rewrite Ho, Hos in Hj.
  destruct (run_details_nth _ _ _ _ _ _ Hdet j _ Hj)
    as (d & e & dt & _ & He & Hexp & _).
  exists e. rewrite Hres. split; [exact He|].
  rewrite Hexp. unfold expected_entry, looked_up, decoded, response_text,
    response_json.
  apply Z.eqb_neq in Hstatus.
  destruct Hbody as [-> | (kvs & -> & Hnone)]; rewrite Hstatus; cbn;
    rewrite ?Hstatus, ?Hnone; cbn; auto.
Qed.

Lemma missing_error_key_falls_back_to_status_witness :
  exists e,
    nth_error (run_results bad_gateway three_operations connected) 1 = Some e
    /\ success e = false
    /\ result e = Some JNull
    /\ error e = Some (JStr ("HTTP " ++ str_of_int 502)).
Proof.
  apply (missing_error_key_falls_back_to_status
           bad_gateway three_operations connected 1 (mkResponse 502 EmptyText)).
  - vm_compute. reflexivity.
  - cbn. lia.
  - left. reflexivity.
Defined.






(** X5.  The runner itself goes to the database once at most: the only
    driver call of a run is the [delete_many({})] of the reset, on the
    collection the handle names (none without a handle); and it never
    prints, because [execute_operation] lets no exception reach the loop. *)
Theorem run_calls_the_driver_only_to_reset
    (env : Env) (catalog : list Descriptor) (s : State) :
  driver_calls (run_actions env catalog s)
  = match collection s with
    | Some name => [mkDriverCall name "delete_many" [JDict []]]
    | None => []
    end
  /\ printed (run_actions env catalog s) = [].
Proof.
  run_detail env catalog s.
  destruct (run_blocks_quiet _ _ _ _ _ _ _ Hb) as (_ & Hnone & Hquiet).
  rewrite Hdc, Hpr, Hnone, Hquiet, app_nil_r. split; [| reflexivity].
  unfold clear_actions. cbn [collection log set_locals].
  destruct (collection s); reflexivity.
Qed.

(** X6.  For every catalog the summary counts as many operations as the
    catalog has descriptors, [completed] ends at that number, [failed] is
    the number of entries that have an [error] key, and the summary
    returned is the one the final [complete] event carries. *)
Theorem summary_counts_the_catalog
    (env : Env) (catalog : list Descriptor) (s : State) :
  exists resp s' msg,
    run_all env catalog s = (inr resp, s')
    /\ total_operations (ra_summary resp) = len catalog
    /\ completed s' = len catalog
    /\ failed (ra_summary resp) = len (filter has_error (ra_results resp))
    /\ last (emitted (run_actions env catalog s)) (EvStart 0 "")
       = EvComplete (ra_summary resp) msg.
Proof.
  run_detail env catalog s.
  destruct (run_blocks_facts _ _ _ _ _ _ _ Hb) as (Hnames & Hwf & _).
  do 3 eexists. split; [exact Hrun|].
  cbn [ra_summary ra_results summarize total_operations failed completed].
  assert (Hlen : len es = len catalog).
  { unfold len. f_equal.
    rewrite <- (length_map operation es), Hnames. apply length_map. }
  split; [exact Hlen|]. split; [reflexivity|]. split.
  - unfold count_successful, len.
    pose proof (filter_partition_length success es) as Hpart.
    assert (Hsame : filter (fun x => negb (success x)) es = filter has_error es).
    { apply filter_ext_in. intros e He.
      rewrite Forall_forall in Hwf. specialize (Hwf e He).
      unfold error_iff_failed, has_error in *.
      destruct (error e), (success e); cbn; try reflexivity.
      - destruct Hwf as [Hwf _]. assert (H : Some j <> None) by discriminate.
        specialize (Hwf H). discriminate.
      - destruct Hwf as [_ Hwf]. specialize (Hwf eq_refl). congruence. }
    rewrite <- Hsame. lia.
  - rewrite Hacts.
    change (ATime (clock env (trace s)) :: ?l)
      with ([ATime (clock env (trace s))] ++ l).
    match goal with
    | |- context [AEmit (EvStart ?a ?b) :: ?l] =>
        change (AEmit (EvStart a b) :: l) with ([AEmit (EvStart a b)] ++ l)
    end.
    rewrite !emitted_app. cbn [emitted].
    rewrite !app_assoc. apply last_last.
Qed.

Create HintDb handle.
Create HintDb envelope.

Lemma keeps_handle_ret {A : Type} (a : A) : keeps_handle (ret a).
Proof. intros s. reflexivity. Qed.

Lemma keeps_handle_lift {A : Type} (r : Exn + A) : keeps_handle (lift r).
Proof. intros s. reflexivity. Qed.

Lemma keeps_handle_bind {A B : Type} (m : M A) (k : A -> M B) :
  keeps_handle m -> (forall a, keeps_handle (k a)) -> keeps_handle (bind m k).
Proof.
  intros Hm Hk s. unfold bind. specialize (Hm s).
  destruct (m s) as [[e | a] s1]; cbn in *; [exact Hm|].
  rewrite Hk. exact Hm.
Qed.

Lemma keeps_handle_try {A : Type} (m : M A) (h : Exn -> M A) :
  keeps_handle m -> (forall e, keeps_handle (h e)) -> keeps_handle (try_except m h).
Proof.
  intros Hm Hh s. unfold try_except. specialize (Hm s).
  destruct (m s) as [[e | a] s1]; cbn in *; [| exact Hm].
  rewrite Hh. exact Hm.
Qed.

Lemma keeps_handle_call (env : Env) (meth : string) (args : list Json) :
  keeps_handle (collection_call env meth args).
Proof.
  intros s. unfold collection_call.
  destruct (collection s) eqn:Hc; [| cbn; exact Hc].
  destruct (mongo env (trace s) _); cbn; exact Hc.
Qed.

Lemma keeps_handle_if {A : Type} (b : bool) (m1 m2 : M A) :
  keeps_handle m1 -> keeps_handle m2 -> keeps_handle (if b then m1 else m2).
Proof. destruct b; auto. Qed.

#[local] Hint Resolve keeps_handle_ret keeps_handle_lift keeps_handle_call
  keeps_handle_if : handle.
#[local] Hint Extern 2 (keeps_handle (bind _ _)) =>
  apply keeps_handle_bind; [| intros ?] : handle.
#[local] Hint Extern 2 (keeps_handle (try_except _ _)) =>
  apply keeps_handle_try; [| intros ?] : handle.
#[local] Hint Extern 3 (keeps_handle (match ?x with _ => _ end)) =>
  destruct x : handle.

Ltac keeps :=
  unfold api_insert_one, api_clear, api_create_index, api_ensure_index,
    api_delete_one, api_delete_many, delete_one, delete_many,
    api_drop_index, api_drop_indexes, api_reindex, api_update, api_remove,
    api_count_documents, api_estimated_document_count, api_distinct,
    api_bulk_write, api_create_indexes, api_insert, answer,
    insert_one, clear_collection, create_index, ensure_index, drop_index,
    drop_indexes, reindex, update, remove, count_documents,
    estimated_document_count, distinct, bulk_write, create_indexes, insert;
  auto 40 with handle.

(** X7.  Every endpoint but [api_rename] and [api_drop] leaves the shared
    handle where it is, whatever the request and whatever the driver does. *)
Theorem only_rename_and_drop_move_the_handle
    (env : Env) (pymongo : DriverClasses) (data : Json) :
  keeps_handle (api_insert_one env data)
  /\ keeps_handle (api_insert env pymongo data)
  /\ keeps_handle (api_update env data)
  /\ keeps_handle (api_remove env data)
  /\ keeps_handle (api_delete_one env data)
  /\ keeps_handle (api_delete_many env data)
  /\ keeps_handle (api_count_documents env data)
  /\ keeps_handle (api_estimated_document_count env)
  /\ keeps_handle (api_create_index env data)
  /\ keeps_handle (api_create_indexes env pymongo data)
  /\ keeps_handle (api_ensure_index env data)
  /\ keeps_handle (api_drop_index env data)
  /\ keeps_handle (api_drop_indexes env)
  /\ keeps_handle (api_reindex env)
  /\ keeps_handle (api_distinct env data)
  /\ keeps_handle (api_bulk_write env pymongo data)
  /\ keeps_handle (api_clear env).
Proof.
  repeat split; keeps.
Qed.

Lemma envelope_json_ok (data : Json) : envelope (json_ok data).
Proof. left. split; [reflexivity | eexists; reflexivity]. Qed.

Lemma envelope_json_error (e : Exn) : envelope (json_error e).
Proof. right. split; [right; reflexivity | eexists; reflexivity]. Qed.

Lemma envelope_json_bad_request (msg : string) : envelope (json_bad_request msg).
Proof. right. split; [left; reflexivity | eexists; reflexivity]. Qed.

Lemma returns_envelope_ret (r : Response) :
  envelope r -> returns_envelope (ret r).
Proof. intros Hr s resp s' H. injection H as <- _. exact Hr. Qed.

Lemma returns_envelope_jsonify (r : PyDict) :
  returns_envelope (lift (jsonify_ok r)).
Proof.
  intros s resp s' H. unfold lift, jsonify_ok in H.
  destruct (jsonable_items r); [discriminate|].
  injection H as <- _. apply envelope_json_ok.
Qed.

Lemma returns_envelope_jsonify_ret (r : PyDict) :
  returns_envelope (bind (lift (jsonify_ok r)) (fun resp => ret resp)).
Proof.
  intros s resp s' H. unfold bind, lift, ret, jsonify_ok in H.
  destruct (jsonable_items r); [discriminate|].
  injection H as <- _. apply envelope_json_ok.
Qed.

Lemma returns_envelope_bind {A : Type} (m : M A) (k : A -> M Response) :
  (forall a, returns_envelope (k a)) -> returns_envelope (bind m k).
Proof.
  intros Hk s resp s' H. unfold bind in H.
  destruct (m s) as [[e | a] s1]; [discriminate|].
  exact (Hk a s1 resp s' H).
Qed.

Lemma always_answers_try (m : M Response) :
  returns_envelope m ->
  always_answers (try_except m (fun e => ret (json_error e))).
Proof.
  intros Hm s. unfold try_except.
  destruct (m s) as [[e | resp] s1] eqn:H.
  - do 2 eexists. split; [reflexivity | apply envelope_json_error].
  - do 2 eexists. split; [reflexivity | exact (Hm s resp s1 H)].
Qed.

#[local] Hint Resolve envelope_json_ok envelope_json_error
  envelope_json_bad_request returns_envelope_ret returns_envelope_jsonify
  returns_envelope_jsonify_ret : envelope.
#[local] Hint Extern 2 (returns_envelope (bind _ _)) =>
  apply returns_envelope_bind; intros ? : envelope.
#[local] Hint Extern 3 (returns_envelope (match ?x with _ => _ end)) =>
  destruct x : envelope.

Ltac answers :=
  unfold api_insert_one, api_rename, api_drop, api_clear, api_create_index,
    api_delete_one, api_delete_many,
    api_ensure_index, api_drop_index, api_drop_indexes, api_reindex,
    api_update, api_remove, api_count_documents,
    api_estimated_document_count, api_distinct, api_bulk_write,
    api_create_indexes, api_insert, answer;
  apply always_answers_try; auto 40 with envelope.

(** X8.  Every endpoint answers every request: no exception leaves it, and the
    answer is 200 with [{"success": true, "data": ...}] or 400/500 with
    [{"success": false, "error": <str>}]. *)
Theorem endpoints_always_answer_with_the_envelope
    (env : Env) (pymongo : DriverClasses) (data : Json) :
  always_answers (api_insert_one env data)
  /\ always_answers (api_insert env pymongo data)
  /\ always_answers (api_update env data)
  /\ always_answers (api_remove env data)
  /\ always_answers (api_delete_one env data)
  /\ always_answers (api_delete_many env data)
  /\ always_answers (api_count_documents env data)
  /\ always_answers (api_estimated_document_count env)
  /\ always_answers (api_create_index env data)
  /\ always_answers (api_create_indexes env pymongo data)
  /\ always_answers (api_ensure_index env data)
  /\ always_answers (api_drop_index env data)
  /\ always_answers (api_drop_indexes env)
  /\ always_answers (api_reindex env)
  /\ always_answers (api_distinct env data)
  /\ always_answers (api_rename env data)
  /\ always_answers (api_drop env)
  /\ always_answers (api_bulk_write env pymongo data)
  /\ always_answers (api_clear env).
Proof.
  repeat split; answers.
Qed.

(** X9.  A rename or a drop that does not answer 200 leaves the shared handle
    where it was: in particular a failed drop does not reset it to
    [test_collection]. *)
Theorem failed_rename_or_drop_keeps_the_handle (env : Env) :
  (forall (data : Json) (s : State) (resp : Response) (s' : State),
      api_rename env data s = (inr resp, s') ->
      status_code resp <> 200 ->
      collection s' = collection s)
  /\ (forall (s : State) (resp : Response) (s' : State),
        api_drop env s = (inr resp, s') ->
        status_code resp <> 200 ->
        collection s' = collection s).
Proof.
  split.
  - intros data s resp s' Hrun Hfail.
    unfold api_rename, rename, collection_call in Hrun. unfold_monad.
    destruct (py_get data "new_name" JNull) as [ex | new_name].
    + injection Hrun as _ <-. reflexivity.
    + destruct new_name; destruct (collection s) eqn:Hc;
        try (injection Hrun as _ <-; exact Hc).
      destruct (mongo env (trace s) _).
      * injection Hrun as _ <-. exact Hc.
      * injection Hrun as <- _. cbn in Hfail. congruence.
  - intros s resp s' Hrun Hfail.
    unfold api_drop, drop, collection_call in Hrun. unfold_monad.
    destruct (collection s) eqn:Hc.
    + destruct (mongo env (trace s) _).
      * injection Hrun as _ <-. exact Hc.
      * injection Hrun as <- _. cbn in Hfail. congruence.
    + injection Hrun as _ <-. exact Hc.
Qed.

Lemma failed_rename_or_drop_keeps_the_handle_witness :
  collection (snd (api_rename disconnected
                     (JDict [("new_name", JStr "test_collection_backup")])
                     connected))
  = collection connected
  /\ collection (snd (api_drop disconnected connected)) = collection connected.
Proof.
  destruct (failed_rename_or_drop_keeps_the_handle disconnected)
    as [Hrename Hdrop].
  split.
  - apply (Hrename (JDict [("new_name", JStr "test_collection_backup")])
             connected (json_error (Exception "No servers found yet"))).
    + reflexivity.
    + cbn. lia.
  - apply (Hdrop connected (json_error (Exception "No servers found yet"))).
    + reflexivity.
    + cbn. lia.
Defined.

(** X10.  After a rename that answered 200, the drop endpoint drops the renamed
    collection: its one driver call is [drop()] on the new name; and when
    that call returns, the handle is back on [test_collection]. *)
Theorem drop_after_rename_drops_the_renamed_collection
    (env : Env) (data : Json) (s : State) (resp : Response) (s1 : State) :
  api_rename env data s = (inr resp, s1) ->
  status_code resp = 200 ->
  exists name,
    py_get data "new_name" JNull = inr (JStr name)
    /\ collection s1 = Some name
    /\ trace (snd (api_drop env s1))
       = trace s1
         ++ [AMongo (mkDriverCall name "drop" [])
               (mongo env (trace s1) (mkDriverCall name "drop" []))]
    /\ forall v,
         mongo env (trace s1) (mkDriverCall name "drop" []) = DReturned v ->
         collection (snd (api_drop env s1)) = Some "test_collection".
Proof.
  intros Hrun Hok.
  assert (Hname : exists name,
             py_get data "new_name" JNull = inr (JStr name)
             /\ collection s1 = Some name).
  { unfold api_rename, rename, collection_call in Hrun. unfold_monad.
    destruct (py_get data "new_name" JNull) as [ex | new_name].
    - injection Hrun as <- _. discriminate.
    - destruct new_name; destruct (collection s);
        try (injection Hrun as <- _; discriminate).
      destruct (mongo env (trace s) _).
      + injection Hrun as <- _. discriminate.
      + injection Hrun as _ <-. eauto. }
  destruct Hname as (name & Hget & Hc).
  exists name. split; [exact Hget|]. split; [exact Hc|].
  unfold api_drop, drop, collection_call. unfold_monad. rewrite Hc.
  split.
  - destruct (mongo env (trace s1) _); reflexivity.
  - intros v ->. reflexivity.
Qed.

Lemma drop_after_rename_drops_the_renamed_collection_witness :
  exists name,
    py_get (JDict [("new_name", JStr "test_collection_backup")]) "new_name" JNull
    = inr (JStr name)
    /\ collection
         (snd (api_rename accepting
                 (JDict [("new_name", JStr "test_collection_backup")]) connected))
       = Some name
    /\ trace
         (snd (api_drop accepting
                 (snd (api_rename accepting
                         (JDict [("new_name", JStr "test_collection_backup")])
                         connected))))
       = trace
           (snd (api_rename accepting
                   (JDict [("new_name", JStr "test_collection_backup")])
                   connected))
         ++ [AMongo (mkDriverCall name "drop" [])
               (mongo accepting
                  (trace
                     (snd (api_rename accepting
                             (JDict [("new_name", JStr "test_collection_backup")])
                             connected)))
                  (mkDriverCall name "drop" []))]
    /\ forall v,
         mongo accepting
           (trace
              (snd (api_rename accepting
                      (JDict [("new_name", JStr "test_collection_backup")])
                      connected)))
           (mkDriverCall name "drop" [])
         = DReturned v ->
         collection
           (snd (api_drop accepting
                   (snd (api_rename accepting
                           (JDict [("new_name", JStr "test_collection_backup")])
                           connected))))
         = Some "test_collection".
Proof.
  apply (drop_after_rename_drops_the_renamed_collection accepting
           (JDict [("new_name", JStr "test_collection_backup")]) connected
           (json_ok (JDict [("operation", JStr "rename");
                            ("new_name", JStr "test_collection_backup")]))).
  - reflexivity.
  - reflexivity.
Defined.

(** X11.  [api_insert_one] answers 200 exactly when the body is a JSON object,
    the handle exists and the driver returns an [InsertOneResult]; the
    document sent to the driver is the [document] of the body, or the empty
    document when the key is missing, and the answer carries the id as a
    string and the acknowledgement. *)
Theorem insert_one_succeeds_iff_the_driver_acknowledges
    (env : Env) (data : Json) (s : State) :
  exists resp s',
    api_insert_one env data s = (inr resp, s')
    /\ (status_code resp = 200 <->
        exists kvs name i a,
          data = JDict kvs
          /\ collection s = Some name
          /\ mongo env (trace s)
               (mkDriverCall name "insert_one"
                  [match assoc "document" kvs with
                   | Some d => d
                   | None => JDict []
                   end])
             = DReturned (InsertOneResult i a)
          /\ resp = json_ok (JDict [("operation", JStr "insert_one");
                                    ("inserted_id", JStr i);
                                    ("acknowledged", JBool a)])).
Proof.
  unfold api_insert_one, insert_one, collection_call. unfold_monad.
  destruct data as [| b | n | str0 | xs | kvs];
    try (cbn; do 2 eexists; split; [reflexivity|];
         split; [cbn; discriminate | intros (? & ? & ? & ? & H & _); discriminate]).
  cbn [py_get].
  destruct (collection s) as [name |].
  - destruct (mongo env (trace s) _) as [ex | v] eqn:Hm.
    + do 2 eexists. split; [reflexivity|].
      split; [cbn; discriminate|].
      intros (kvs' & name' & i & a & Hd & Hn & Hcall & _).
      injection Hd as <-. injection Hn as <-. congruence.
    + destruct v as [i a | n a | j]; cbn.
      * do 2 eexists. split; [reflexivity|].
        split; [| reflexivity]. intros _.
        exists kvs, name, i, a. auto.
      * do 2 eexists. split; [reflexivity|].
        split; [cbn; discriminate|].
        intros (kvs' & name' & i & a' & Hd & Hn & Hcall & _).
        injection Hd as <-. injection Hn as <-. congruence.
      * do 2 eexists. split; [reflexivity|].
        split; [cbn; discriminate|].
        intros (kvs' & name' & i & a' & Hd & Hn & Hcall & _).
        injection Hd as <-. injection Hn as <-. congruence.
  - do 2 eexists. split; [reflexivity|].
    split; [cbn; discriminate|].
    intros (? & ? & ? & ? & _ & H & _). discriminate.
Qed.

Ltac break_match :=
  match goal with
  | |- context [match ?x with _ => _ end] => destruct x eqn:?
  end.

(** X12.  Sent a body that has none of the keys [field], [direction] and
    [unique], the index endpoints ask the driver for an ascending index on
    [name], whatever else the body holds (a [keys] entry is not read). *)
Theorem index_endpoints_default_to_name_ascending
    (env : Env) (kvs : list (string * Json)) (s : State) (name : string) :
  collection s = Some name ->
  assoc "field" kvs = None ->
  assoc "direction" kvs = None ->
  assoc "unique" kvs = None ->
  let created :=
    mkDriverCall name "create_index"
      [JList [JList [JStr "name"; JInt 1]]; JDict [("unique", JBool false)]] in
  let ensured :=
    mkDriverCall name "ensure_index"
      [JList [JList [JStr "name"; JInt 1]]; JDict []] in
  trace (snd (api_create_index env (JDict kvs) s))
  = trace s ++ [AMongo created (mongo env (trace s) created)]
  /\ trace (snd (api_ensure_index env (JDict kvs) s))
     = trace s ++ [AMongo ensured (mongo env (trace s) ensured)].
Proof.
  intros Hc Hf Hd Hu created ensured.
  unfold api_create_index, api_ensure_index, answer, create_index, ensure_index,
    collection_call.
  unfold_monad. cbn [py_get]. rewrite Hf, Hd, Hu, Hc.
  fold created. fold ensured.
  split.
  - destruct (mongo env (trace s) created) as [ex | v]; [reflexivity|].
    unfold jsonify_ok. cbn. destruct (jsonable v); reflexivity.
  - destruct (mongo env (trace s) ensured) as [ex | v]; [reflexivity|].
    unfold jsonify_ok. cbn. destruct (jsonable v); reflexivity.
Qed.

Lemma index_endpoints_default_to_name_ascending_witness :
  trace (snd (api_create_index accepting (catalog_payload "create_index") connected))
  = trace connected
    ++ [AMongo
          (mkDriverCall "test_collection" "create_index"
             [JList [JList [JStr "name"; JInt 1]]; JDict [("unique", JBool false)]])
          (mongo accepting (trace connected)
             (mkDriverCall "test_collection" "create_index"
                [JList [JList [JStr "name"; JInt 1]];
                 JDict [("unique", JBool false)]]))]
  /\ trace (snd (api_ensure_index accepting (catalog_payload "create_index") connected))
     = trace connected
       ++ [AMongo
             (mkDriverCall "test_collection" "ensure_index"
                [JList [JList [JStr "name"; JInt 1]]; JDict []])
             (mongo accepting (trace connected)
                (mkDriverCall "test_collection" "ensure_index"
                   [JList [JList [JStr "name"; JInt 1]]; JDict []]))].
Proof.
  apply (index_endpoints_default_to_name_ascending accepting
           [("keys", JList [JList [JStr "email"; JInt 1]])] connected
           "test_collection"); reflexivity.
Defined.

(** X13.  Sent a body that has none of the keys [spec], [document] and [multi],
    the deprecated update and remove endpoints call the driver with the
    empty filter (and the empty update), [multi] false, whatever else the
    body holds ([filter] and [update] entries are not read). *)
Theorem update_and_remove_default_to_the_empty_filter
    (env : Env) (kvs : list (string * Json)) (s : State) (name : string) :
  collection s = Some name ->
  assoc "spec" kvs = None ->
  assoc "document" kvs = None ->
  assoc "multi" kvs = None ->
  let updated :=
    mkDriverCall name "update"
      [JDict []; JDict []; JDict [("multi", JBool false)]] in
  let removed :=
    mkDriverCall name "remove" [JDict []; JDict [("multi", JBool false)]] in
  trace (snd (api_update env (JDict kvs) s))
  = trace s ++ [AMongo updated (mongo env (trace s) updated)]
  /\ trace (snd (api_remove env (JDict kvs) s))
     = trace s ++ [AMongo removed (mongo env (trace s) removed)].
Proof.
  intros Hc Hs Hd Hm updated removed.
  unfold api_update, api_remove, answer, update, remove, collection_call.
  unfold_monad. cbn [py_get]. rewrite Hs, Hd, Hm, Hc.
  fold updated. fold removed.
  split.
  - destruct (mongo env (trace s) updated) as [ex | v]; [reflexivity|].
    unfold jsonify_ok. cbn. destruct (jsonable v); reflexivity.
  - destruct (mongo env (trace s) removed) as [ex | v]; [reflexivity|].
    unfold jsonify_ok. cbn. destruct (jsonable v); reflexivity.
Qed.

Lemma update_and_remove_default_to_the_empty_filter_witness :
  trace (snd (api_update accepting (catalog_payload "update") connected))
  = trace connected
    ++ [AMongo
          (mkDriverCall "test_collection" "update"
             [JDict []; JDict []; JDict [("multi", JBool false)]])
          (mongo accepting (trace connected)
             (mkDriverCall "test_collection" "update"
                [JDict []; JDict []; JDict [("multi", JBool false)]]))]
  /\ trace (snd (api_remove accepting (catalog_payload "update") connected))
     = trace connected
       ++ [AMongo
             (mkDriverCall "test_collection" "remove"
                [JDict []; JDict [("multi", JBool false)]])
             (mongo accepting (trace connected)
                (mkDriverCall "test_collection" "remove"
                   [JDict []; JDict [("multi", JBool false)]]))].
Proof.
  apply (update_and_remove_default_to_the_empty_filter accepting
           [("filter", JDict [("name", JStr "Bob Smith")]);
            ("update", JDict [("$set", JDict [("address", JStr "San Francisco")])])]
           connected "test_collection"); reflexivity.
Defined.

(** X14.  A filter that is missing or falsy ([None], [false], [0], the empty
    string, list or object) is replaced by the empty filter: the count
    and distinct endpoints then go over the whole collection; and without
    a [key] the distinct endpoint asks for the values of [name]. *)
Theorem falsy_filter_is_the_empty_filter
    (env : Env) (kvs : list (string * Json)) (s : State) (name : string) :
  collection s = Some name ->
  py_truthy (match assoc "filter" kvs with Some f => f | None => JDict [] end)
  = false ->
  let counted := mkDriverCall name "count_documents" [JDict []] in
  let listed :=
    mkDriverCall name "distinct"
      [match assoc "key" kvs with Some k => k | None => JStr "name" end;
       JDict []] in
  trace (snd (api_count_documents env (JDict kvs) s))
  = trace s ++ [AMongo counted (mongo env (trace s) counted)]
  /\ trace (snd (api_distinct env (JDict kvs) s))
     = trace s ++ [AMongo listed (mongo env (trace s) listed)].
Proof.
  intros Hc Hfalsy counted listed.
  unfold api_count_documents, api_distinct, answer, count_documents, distinct,
    collection_call, py_or.
  unfold_monad. cbn [py_get]. rewrite Hfalsy, Hc.
  fold counted. fold listed.
  split.
  - destruct (mongo env (trace s) counted) as [ex | v]; [reflexivity|].
    unfold jsonify_ok. cbn. destruct (jsonable v); reflexivity.
  - destruct (mongo env (trace s) listed) as [ex | v]; [reflexivity|].
    destruct (py_len v); [reflexivity|].
    unfold jsonify_ok. cbn. destruct (jsonable v); reflexivity.
Qed.

Lemma falsy_filter_is_the_empty_filter_witness :
  trace (snd (api_count_documents accepting (catalog_payload "distinct") connected))
  = trace connected
    ++ [AMongo (mkDriverCall "test_collection" "count_documents" [JDict []])
          (mongo accepting (trace connected)
             (mkDriverCall "test_collection" "count_documents" [JDict []]))]
  /\ trace (snd (api_distinct accepting (catalog_payload "distinct") connected))
     = trace connected
       ++ [AMongo
             (mkDriverCall "test_collection" "distinct" [JStr "name"; JDict []])
             (mongo accepting (trace connected)
                (mkDriverCall "test_collection" "distinct"
                   [JStr "name"; JDict []]))].
Proof.
  apply (falsy_filter_is_the_empty_filter accepting
           [("field", JStr "department")] connected "test_collection");
    reflexivity.
Defined.

(** X15.  Sent a body without [filter], the delete-many endpoint does to the
    database what the reset of the runner and the clear endpoint do: one
    [delete_many({})] through the handle, which empties the collection. *)
Theorem delete_many_without_filter_clears_the_collection
    (env : Env) (kvs : list (string * Json)) (s : State) :
  assoc "filter" kvs = None ->
  trace (snd (api_delete_many env (JDict kvs) s))
  = trace s ++ clear_actions env s
  /\ trace (snd (api_clear env s)) = trace s ++ clear_actions env s.
Proof.
  intros Hf.
  unfold api_delete_many, api_clear, delete_many, clear_collection,
    collection_call, clear_actions.
  unfold_monad. cbn [py_get]. rewrite Hf.
  destruct (collection s) as [name |].
  - split;
      (destruct (mongo env (trace s) _) as [ex | v]; [reflexivity|];
       destruct v; reflexivity).
  - cbn. rewrite app_nil_r. split; reflexivity.
Qed.

Lemma delete_many_without_filter_clears_the_collection_witness :
  trace (snd (api_delete_many accepting
                (JDict [("query", JDict [("department", JStr "Intern")])])
                connected))
  = trace connected ++ clear_actions accepting connected
  /\ trace (snd (api_clear accepting connected))
     = trace connected ++ clear_actions accepting connected.
Proof.
  apply (delete_many_without_filter_clears_the_collection accepting
           [("query", JDict [("department", JStr "Intern")])] connected).
  reflexivity.
Defined.

(** X16.  Every descriptor of the catalog is sent to a route that exists, with
    the method that route accepts, and the route is the endpoint of the
    descriptor's own operation; no two routes share a path. *)
Theorem catalog_requests_reach_their_endpoints (env : Env) :
  Forall (fun d =>
            In (endpoint d, method (request_of env d), ("api_" ++ op_name d)%string)
               routes)
    test_operations
  /\ NoDup (map (fun r => fst (fst r)) routes).
Proof.
  split.
  - unfold request_of.
    repeat (constructor; [cbn; tauto|]). constructor.
  - apply (NoDup_count_occ string_dec). intros x.
    destruct (in_dec string_dec x (map (fun r => fst (fst r)) routes))
      as [Hin | Hout].
    + revert x Hin. apply Forall_forall.
      repeat (constructor; [vm_compute; lia|]). constructor.
    + apply (count_occ_not_In string_dec) in Hout. lia.
Qed.

Lemma unmarked_is_skipped (pymongo : DriverClasses) (op : Json) :
  unmarked op = true -> convert_operation pymongo op = inr None.
Proof.
  destruct op as [| | | | | kvs]; try discriminate.
  unfold unmarked. cbn [forallb].
  intros H. apply andb_true_iff in H. destruct H as [Hkeys H].
  repeat (apply andb_true_iff in Hkeys; destruct Hkeys as [? Hkeys]).
  unfold convert_operation, type_is, and_then. cbn [py_in py_get].
  repeat match goal with
         | H : match assoc ?k kvs with Some _ => false | None => true end = true
           |- _ => destruct (assoc k kvs); [discriminate | clear H]
         end.
  destruct (assoc "type" kvs) as [t |]; [| reflexivity].
  cbn [existsb] in H.
  apply negb_true_iff in H.
  repeat (apply orb_false_iff in H; destruct H as [? H]).
  repeat match goal with
         | H : is_str ?k t = false |- _ => rewrite H; clear H
         end.
  reflexivity.
Qed.

(** The list of a bulk request is converted operation by operation, in
    order; what no branch recognises is left out, and one operation that
    fails makes the whole conversion fail. *)
Lemma convert_operations_spec (pymongo : DriverClasses) (ops : list Json) :
  match convert_operations pymongo ops with
  | inr bulk =>
      exists rs,
        Forall2 (fun op r => convert_operation pymongo op = inr r) ops rs
        /\ bulk = flat_map option_list rs
  | inl ex =>
      exists before op after,
        ops = before ++ op :: after
        /\ convert_operation pymongo op = inl ex
        /\ Forall (fun op' => exists r, convert_operation pymongo op' = inr r) before
  end.
Proof.
  induction ops as [| op ops IH]; cbn [convert_operations].
  - exists []. split; [constructor | reflexivity].
  - unfold and_then at 1.
    destruct (convert_operation pymongo op) as [ex | r] eqn:Hop.
    + exists [], op, ops. repeat split; auto.
    + unfold and_then at 1.
      destruct (convert_operations pymongo ops) as [ex | bulk].
      * destruct IH as (before & op' & after & -> & Hbad & Hgood).
        exists (op :: before), op', after. repeat split; auto.
        constructor; eauto.
      * destruct IH as (rs & Hall & ->).
        exists (r :: rs). split; [constructor; assumption|].
        destruct r; reflexivity.
Qed.

Lemma unmarked_all_skipped (pymongo : DriverClasses) (ops : list Json) :
  forallb unmarked ops = true -> convert_operations pymongo ops = inr [].
Proof.
  induction ops as [| op ops IH]; [reflexivity|].
  cbn [forallb convert_operations]. intros H.
  apply andb_true_iff in H. destruct H as [Hop Hops].
  rewrite (unmarked_is_skipped pymongo op Hop), (IH Hops). reflexivity.
Qed.

(** X17.  A bulk request whose [operations] are missing, empty or all
    unrecognised is answered 400 and changes nothing: the driver is not
    called. *)
Theorem bulk_write_without_operations_is_a_bad_request
    (env : Env) (pymongo : DriverClasses)
    (kvs : list (string * Json)) (ops : list Json) (s : State) :
  py_get (JDict kvs) "operations" (JList []) = inr (JList ops) ->
  forallb unmarked ops = true ->
  api_bulk_write env pymongo (JDict kvs) s
  = (inr (json_bad_request "No valid operations to execute"), s).
Proof.
  intros Hget Hall. unfold api_bulk_write. unfold_monad.
  rewrite Hget. cbn [py_iter]. rewrite (unmarked_all_skipped pymongo ops Hall).
  reflexivity.
Qed.

(** X18.  A bulk request reaches the driver all at once or not at all: either
    the answer is not a 200 and nothing changed, or there was exactly one
    driver call, [bulk_write] on the handle, with the conversions of all
    the operations of the request in their order (the unrecognised ones
    left out). *)
Theorem bulk_write_sends_all_or_nothing (env : Env) (pymongo : DriverClasses) (data : Json) (s : State) :
  exists resp s',
    api_bulk_write env pymongo data s = (inr resp, s')
    /\ ((status_code resp <> 200 /\ s' = s)
        \/ exists name opsj ops rs,
             collection s = Some name
             /\ py_get data "operations" (JList []) = inr opsj
             /\ py_iter opsj = inr ops
             /\ Forall2 (fun op r => convert_operation pymongo op = inr r) ops rs
             /\ flat_map option_list rs <> []
             /\ s' = log (AMongo
                            (mkDriverCall name "bulk_write"
                               [JList (flat_map option_list rs)])
                            (mongo env (trace s)
                               (mkDriverCall name "bulk_write"
                                  [JList (flat_map option_list rs)]))) s).
Proof.
  unfold api_bulk_write. unfold_monad.
  destruct (py_get data "operations" (JList [])) as [ex | opsj] eqn:Hget.
  { do 2 eexists. split; [reflexivity|]. left. split; [cbn; lia | reflexivity]. }
  destruct (py_iter opsj) as [ex | ops] eqn:Hiter.
  { do 2 eexists. split; [reflexivity|]. left. split; [cbn; lia | reflexivity]. }
  pose proof (convert_operations_spec pymongo ops) as Hspec.
  destruct (convert_operations pymongo ops) as [ex | bulk].
  { do 2 eexists. split; [reflexivity|]. left. split; [cbn; lia | reflexivity]. }
  destruct Hspec as (rs & Hall & ->).
  destruct (flat_map option_list rs) as [| b bulk] eqn:Hbulk.
  { do 2 eexists. split; [reflexivity|]. left. split; [cbn; lia | reflexivity]. }
  unfold bulk_write, collection_call. unfold_monad.
  destruct (collection s) as [name |] eqn:Hc.
  2:{ do 2 eexists. split; [reflexivity|]. left. split; [cbn; lia | reflexivity]. }
  destruct (mongo env (trace s) _) as [ex | v] eqn:Hm.
  { do 2 eexists. split; [reflexivity|]. right.
    exists name, opsj, ops, rs. rewrite Hbulk, Hm.
    repeat split; auto. discriminate. }
  repeat match goal with
         | |- context [result_attribute pymongo v ?a] =>
             destruct (result_attribute pymongo v a) as [? | ?]
         end;
    (do 2 eexists; split; [reflexivity|]; right;
     exists name, opsj, ops, rs; rewrite Hbulk, Hm;
     repeat split; auto; discriminate).
Qed.

(** X19.  An operation with the key [insertOne] is an insert whatever else it
    holds; the document is the [document] of the value, or the value itself
    when it has no such key. *)
Theorem insert_one_marker_wins
    (pymongo : DriverClasses)
    (kvs spec : list (string * Json)) :
  assoc "insertOne" kvs = Some (JDict spec) ->
  convert_operation pymongo (JDict kvs)
  = and_then
      (InsertOne pymongo (match assoc "document" spec with
                  | Some d => d
                  | None => JDict spec
                  end))
      (fun o => inr (Some o)).
Proof.
  intros H. unfold convert_operation, and_then.
  cbn [py_in py_item py_get]. rewrite H. cbn [py_get]. reflexivity.
Qed.

(** X20.  The four ways to ask for an index on one key say the same thing:
    [{"keys": [[f, d]]}], [[[f, d]]], [[f, d]] and
    [{"field": f, "direction": d}] all build [IndexModel([(f, d)])], and
    [{"field": f}] builds [IndexModel([(f, 1)])]; [f] must not itself be a
    list. *)
Theorem single_key_index_formats_agree (pymongo : DriverClasses) (f d : Json) :
  is_list f = false ->
  let model (d : Json) :=
    and_then (IndexModel pymongo (JList [JList [f; d]])) (fun m => inr (Some m)) in
  convert_index pymongo (JDict [("keys", JList [JList [f; d]])]) = model d
  /\ convert_index pymongo (JList [JList [f; d]]) = model d
  /\ convert_index pymongo (JList [f; d]) = model d
  /\ convert_index pymongo (JDict [("field", f); ("direction", d)]) = model d
  /\ convert_index pymongo (JDict [("field", f)]) = model (JInt 1).
Proof.
  intros Hf model. unfold convert_index, and_then.
  cbn. rewrite Hf. repeat split; reflexivity.
Qed.

Lemma unrecognised_index_is_skipped (pymongo : DriverClasses) (spec : Json) :
  unrecognised_index spec = true -> convert_index pymongo spec = inr None.
Proof.
  unfold unrecognised_index, convert_index. intros H.
  apply andb_true_iff in H. destruct H as [H Hfield].
  apply andb_true_iff in H. destruct H as [Hlist Hkeys].
  apply negb_true_iff in Hlist, Hkeys, Hfield.
  rewrite Hkeys, Hfield. destruct spec; try reflexivity. discriminate.
Qed.

Lemma unrecognised_indexes_all_skipped (pymongo : DriverClasses) (specs : list Json) :
  forallb unrecognised_index specs = true ->
  convert_indexes pymongo specs = inr [].
Proof.
  induction specs as [| spec specs IH]; [reflexivity|].
  cbn [forallb convert_indexes]. intros H.
  apply andb_true_iff in H. destruct H as [Hspec Hspecs].
  rewrite (unrecognised_index_is_skipped pymongo spec Hspec), (IH Hspecs). reflexivity.
Qed.

(** X21.  A request for indexes whose [indexes] are missing, empty or all
    unrecognised (a bare field name, for one) is answered 400 and changes
    nothing: the driver is not called. *)
Theorem create_indexes_without_specifications_is_a_bad_request
    (env : Env) (pymongo : DriverClasses)
    (kvs : list (string * Json)) (specs : list Json) (s : State) :
  py_get (JDict kvs) "indexes" (JList []) = inr (JList specs) ->
  forallb unrecognised_index specs = true ->
  api_create_indexes env pymongo (JDict kvs) s
  = (inr (json_bad_request "No valid index specifications"), s).
Proof.
  intros Hget Hall. unfold api_create_indexes. unfold_monad.
  rewrite Hget. cbn [py_iter]. rewrite (unrecognised_indexes_all_skipped pymongo specs Hall).
  reflexivity.
Qed.

(** X22.  The deprecated insert endpoint, sent an object whose [documents] is
    missing or falsy and whose [document] is missing or [None], answers
    400 and changes nothing. *)
Theorem insert_without_a_document_is_a_bad_request
    (env : Env) (pymongo : DriverClasses)
    (kvs : list (string * Json)) (s : State) :
  py_truthy (match assoc "documents" kvs with Some d => d | None => JNull end)
  = false ->
  match assoc "document" kvs with Some d => d | None => JNull end = JNull ->
  api_insert env pymongo (JDict kvs) s
  = (inr (json_bad_request "Missing 'document' or 'documents' field"), s).
Proof.
  intros Hdocs Hdoc. unfold api_insert. unfold_monad. cbn [py_get].
  rewrite Hdocs, Hdoc. reflexivity.
Qed.

(** X23.  When [documents] is truthy it is what the driver gets, whether or not
    there is a [document] too. *)
Theorem insert_prefers_documents
    (env : Env) (pymongo : DriverClasses)
    (kvs : list (string * Json)) (docs : Json) (s : State) (name : string) :
  collection s = Some name ->
  assoc "documents" kvs = Some docs ->
  py_truthy docs = true ->
  trace (snd (api_insert env pymongo (JDict kvs) s))
  = trace s
    ++ [AMongo (mkDriverCall name "insert" [docs])
          (mongo env (trace s) (mkDriverCall name "insert" [docs]))].
Proof.
  intros Hc Hdocs Htruthy.
  unfold api_insert, insert, collection_call. unfold_monad. cbn [py_get].
  rewrite Hdocs, Htruthy.
  destruct docs; try discriminate; rewrite Hc;
    (destruct (mongo env (trace s) _) as [ex | v]; [reflexivity|];
     destruct v as [| | j]; try reflexivity; destruct j; reflexivity).
Qed.

Lemma bulk_write_without_operations_is_a_bad_request_witness :
  api_bulk_write accepting printed_classes
    (JDict [("operations",
             JList [JDict [("insert", JDict [("name", JStr "A")])];
                    JDict [("type", JStr "upsert")]])])
    connected
  = (inr (json_bad_request "No valid operations to execute"), connected).
Proof.
  apply (bulk_write_without_operations_is_a_bad_request accepting printed_classes
           [("operations",
             JList [JDict [("insert", JDict [("name", JStr "A")])];
                    JDict [("type", JStr "upsert")]])]
           [JDict [("insert", JDict [("name", JStr "A")])];
            JDict [("type", JStr "upsert")]]
           connected); reflexivity.
Defined.

Lemma insert_one_marker_wins_witness :
  convert_operation printed_classes
    (JDict [("type", JStr "delete");
            ("insertOne", JDict [("name", JStr "A")])])
  = and_then
      (InsertOne printed_classes
         (match assoc "document" [("name", JStr "A")] with
          | Some d => d
          | None => JDict [("name", JStr "A")]
          end))
      (fun o => inr (Some o)).
Proof.
  apply (insert_one_marker_wins printed_classes
           [("type", JStr "delete"); ("insertOne", JDict [("name", JStr "A")])]
           [("name", JStr "A")]).
  reflexivity.
Defined.

Lemma single_key_index_formats_agree_witness :
  let model (d : Json) :=
    and_then (IndexModel printed_classes (JList [JList [JStr "email"; d]]))
      (fun m => inr (Some m)) in
  convert_index printed_classes
    (JDict [("keys", JList [JList [JStr "email"; JInt (-1)]])])
  = model (JInt (-1))
  /\ convert_index printed_classes (JList [JList [JStr "email"; JInt (-1)]])
     = model (JInt (-1))
  /\ convert_index printed_classes (JList [JStr "email"; JInt (-1)])
     = model (JInt (-1))
  /\ convert_index printed_classes
       (JDict [("field", JStr "email"); ("direction", JInt (-1))])
     = model (JInt (-1))
  /\ convert_index printed_classes (JDict [("field", JStr "email")])
     = model (JInt 1).
Proof.
  apply (single_key_index_formats_agree printed_classes
           (JStr "email") (JInt (-1))).
  reflexivity.
Defined.

Lemma create_indexes_without_specifications_is_a_bad_request_witness :
  api_create_indexes accepting printed_classes
    (JDict [("indexes", JList [JStr "email"; JDict [("key", JStr "age")]])])
    connected
  = (inr (json_bad_request "No valid index specifications"), connected).
Proof.
  apply (create_indexes_without_specifications_is_a_bad_request accepting printed_classes
           [("indexes", JList [JStr "email"; JDict [("key", JStr "age")]])]
           [JStr "email"; JDict [("key", JStr "age")]]
           connected); reflexivity.
Defined.

Lemma insert_without_a_document_is_a_bad_request_witness :
  api_insert accepting printed_classes
    (JDict [("documents", JList []); ("document", JNull)]) connected
  = (inr (json_bad_request "Missing 'document' or 'documents' field"), connected).
Proof.
  apply (insert_without_a_document_is_a_bad_request accepting printed_classes
           [("documents", JList []); ("document", JNull)] connected);
    reflexivity.
Defined.

Lemma insert_prefers_documents_witness :
  trace (snd (api_insert accepting printed_classes
                (JDict [("document", JDict [("name", JStr "A")]);
                        ("documents", JList [JDict [("name", JStr "B")]])])
                connected))
  = trace connected
    ++ [AMongo
          (mkDriverCall "test_collection" "insert"
             [JList [JDict [("name", JStr "B")]]])
          (mongo accepting (trace connected)
             (mkDriverCall "test_collection" "insert"
                [JList [JDict [("name", JStr "B")]]]))].
Proof.
  apply (insert_prefers_documents accepting printed_classes
           [("document", JDict [("name", JStr "A")]);
            ("documents", JList [JDict [("name", JStr "B")]])]
           (JList [JDict [("name", JStr "B")]]) connected "test_collection");
    reflexivity.
Defined.
